(** * Ingestion and normalisation of the receipts / users / brands exports

    A shallow embedding of the two pipeline scripts of the repository,
    [data/input_data/abc.py] and [data/input_data/import gzip.py], and the
    properties of their loader and of their value conversions.

    Layout: the Python and pandas operations the scripts call, then the two
    scripts (one module each, definitions named as in the source), then the
    theorems. *)

From Stdlib Require Import ZArith List String Ascii Bool Lia SpecFloat.
Import ListNotations.

Local Open Scope string_scope.
Local Open Scope list_scope.
Local Open Scope Z_scope.

(* ================================================================== *)
(** ** Exceptions *)

(** The exception classes the scripts can meet.  [JSONDecodeError] and
    [UnicodeDecodeError] are subclasses of [ValueError]; [FileNotFoundError]
    and [BadGzipFile] are subclasses of [OSError]. *)
Inductive exn : Type :=
| TypeError
| ValueError
| JSONDecodeError
| UnicodeDecodeError
| KeyError
| AttributeError
| OverflowError
| ZeroDivisionError
| OSError
| FileNotFoundError
| BadGzipFile
| EOFError.

(** [except ValueError] catches the class and its subclasses. *)
Definition is_ValueError (e : exn) : bool :=
  match e with
  | ValueError | JSONDecodeError | UnicodeDecodeError => true
  | _ => false
  end.

Inductive result (A : Type) : Type :=
| Ok (a : A)
| Raise (e : exn).

Arguments Ok {A} a.
Arguments Raise {A} e.

Definition bind {A B : Type} (c : result A) (k : A -> result B) : result B :=
  match c with
  | Ok a => k a
  | Raise e => Raise e
  end.

Notation "x <- c ;; k" := (bind c (fun x => k))
  (at level 61, c at next level, right associativity).

Definition returns {A : Type} (c : result A) : Prop := exists a, c = Ok a.

(** [Series.apply] and list comprehensions: the first exception wins. *)
Fixpoint mapM {A B : Type} (f : A -> result B) (xs : list A) : result (list B) :=
  match xs with
  | [] => Ok []
  | x :: xs' => y <- f x ;; ys <- mapM f xs' ;; Ok (y :: ys)
  end.

(* ================================================================== *)
(** ** Strings

    A Python [str] is a [string] whose characters stand for code points
    below 256. *)

(** [str.isspace] on one character, for the code points below 256. *)
Definition isspace (c : ascii) : bool :=
  let n := N_of_ascii c in
  (((9 <=? n) && (n <=? 13)) || ((28 <=? n) && (n <=? 32))
   || (n =? 133) || (n =? 160))%N.

Fixpoint lstrip (s : string) : string :=
  match s with
  | EmptyString => EmptyString
  | String c s' => if isspace c then lstrip s' else s
  end.

(** [rstrip] keeps a character when it is not a space or when something
    is left after it. *)
Fixpoint rstrip (s : string) : string :=
  match s with
  | EmptyString => EmptyString
  | String c s' =>
      match rstrip s' with
      | EmptyString => if isspace c then EmptyString else String c EmptyString
      | r => String c r
      end
  end.

Definition strip (s : string) : string := rstrip (lstrip s).

(** Truth value of a [str]: non-empty. *)
Definition str_bool (s : string) : bool :=
  match s with
  | EmptyString => false
  | String _ _ => true
  end.

(** [s.startswith(p)]. *)
Fixpoint startswith (s p : string) {struct p} : bool :=
  match p with
  | EmptyString => true
  | String a p' =>
      match s with
      | EmptyString => false
      | String b s' => Ascii.eqb a b && startswith s' p'
      end
  end.

(** [s.split(sep)] for a one-character separator: never empty. *)
Fixpoint split (sep : ascii) (s : string) : list string :=
  match s with
  | EmptyString => [EmptyString]
  | String c s' =>
      if Ascii.eqb c sep then EmptyString :: split sep s'
      else match split sep s' with
           | [] => [String c EmptyString]
           | w :: ws => String c w :: ws
           end
  end.

(** [xs[-1]]. *)
Definition last_item (xs : list string) : result string :=
  match rev xs with
  | [] => Raise KeyError
  | x :: _ => Ok x
  end.

(** [s.replace(old, new)] for a non-empty [old]: occurrences are taken
    left to right and do not overlap.  [skip] counts the characters of an
    occurrence that are still to be dropped. *)
Fixpoint replace_from (old new : string) (skip : nat) (s : string) : string :=
  match s with
  | EmptyString => EmptyString
  | String c s' =>
      match skip with
      | S k => replace_from old new k s'
      | O =>
          if startswith s old
          then (new ++ replace_from old new (Nat.pred (String.length old)) s')%string
          else String c (replace_from old new O s')
      end
  end.

Definition replace (s old new : string) : string := replace_from old new O s.

(* ================================================================== *)
(** ** Floats

    A Python [float] is an IEEE 754 binary64 number. *)

Definition prec : Z := 53.
Definition emax : Z := 1024.

Definition float := spec_float.

(** [float(n)]: the nearest float, [OverflowError] beyond the range. *)
Definition float_of_int (n : Z) : result float :=
  match binary_normalize prec emax n 0 false with
  | S754_infinity _ => Raise OverflowError
  | x => Ok x
  end.

(** An integer as an exact, not normalised, operand of a division. *)
Definition exact_of_int (n : Z) : float :=
  match n with
  | Z0 => S754_zero false
  | Zpos p => S754_finite false p 0
  | Zneg p => S754_finite true p 0
  end.

(** [a / b] on two [int]: the float nearest to the exact quotient. *)
Definition int_truediv (a b : Z) : result float :=
  if b =? 0 then Raise ZeroDivisionError
  else match SFdiv prec emax (exact_of_int a) (exact_of_int b) with
       | S754_infinity _ => Raise OverflowError
       | x => Ok x
       end.

(** [x / y] on two [float]. *)
Definition float_truediv (x y : float) : result float :=
  match y with
  | S754_zero _ => Raise ZeroDivisionError
  | _ => Ok (SFdiv prec emax x y)
  end.

(** [modf]: the integral part, towards zero, and the fractional part, which
    is exact.  Only called on finite numbers. *)
Definition modf (x : float) : Z * float :=
  match x with
  | S754_finite s m e =>
      if 0 <=? e then (cond_Zopp s (Z.pos m * 2 ^ e), S754_zero s)
      else let d := 2 ^ (- e) in
           (cond_Zopp s (Z.pos m / d),
            binary_normalize prec emax (cond_Zopp s (Z.pos m mod d)) e s)
  | _ => (0, x)
  end.

(** Rounding of a finite float to the nearest integer, ties to even. *)
Definition round_half_even (x : float) : Z :=
  match x with
  | S754_finite s m e =>
      if 0 <=? e then cond_Zopp s (Z.pos m * 2 ^ e)
      else let d := 2 ^ (- e) in
           let q := Z.pos m / d in
           let r := Z.pos m mod d in
           cond_Zopp s
             (match 2 * r ?= d with
              | Lt => q
              | Gt => q + 1
              | Eq => if Z.even q then q else q + 1
              end)
  | _ => 0
  end.

(* ================================================================== *)
(** ** Naive datetimes *)

Record datetime : Type := mkDatetime {
  year : Z; month : Z; day : Z;
  hour : Z; minute : Z; second : Z; microsecond : Z
}.

(** Proleptic Gregorian date of a day number counted from 1970-01-01. *)
Definition civil_from_days (z : Z) : Z * Z * Z :=
  let z := z + 719468 in
  let era := z / 146097 in
  let doe := z - era * 146097 in
  let yoe := (doe - doe / 1460 + doe / 36524 - doe / 146096) / 365 in
  let doy := doe - (365 * yoe + yoe / 4 - yoe / 100) in
  let mp := (5 * doy + 2) / 153 in
  let d := doy - (153 * mp + 2) / 5 + 1 in
  let m := if mp <? 10 then mp + 3 else mp - 9 in
  (yoe + era * 400 + (if m <=? 2 then 1 else 0), m, d).

(** The wall clock reading [secs] seconds and [us] microseconds after
    1970-01-01T00:00:00. *)
Definition datetime_of_seconds (secs us : Z) : datetime :=
  let '(y, m, d) := civil_from_days (secs / 86400) in
  let r := secs mod 86400 in
  mkDatetime y m d (r / 3600) (r mod 3600 / 60) (r mod 60) us.

Definition MINYEAR : Z := 1.
Definition MAXYEAR : Z := 9999.

(** Seconds and microseconds of a finite timestamp: the timestamp is split
    by [modf], its fraction is scaled to microseconds and rounded half to
    even, and a carry goes to the seconds. *)
Definition timeval (x : float) : Z * Z :=
  let '(intpart, floatpart) := modf x in
  let r := round_half_even
             (SFmul prec emax floatpart (S754_finite false 1000000 0)) in
  if 1000000 <=? r then (intpart + 1, r - 1000000)
  else if r <? 0 then (intpart - 1, r + 1000000)
  else (intpart, r).

(** [datetime.datetime.fromtimestamp(x)] for a float [x], with the offset
    of local time from UTC, in seconds east, given as a function of the
    instant.  The result is the reading of the local wall clock. *)
Definition fromtimestamp (utcoffset : Z -> Z) (x : float) : result datetime :=
  match x with
  | S754_nan => Raise ValueError
  | S754_infinity _ => Raise OverflowError
  | _ =>
      let '(sec, us) := timeval x in
      if (sec <? - 2 ^ 63) || (2 ^ 63 <=? sec) then Raise OverflowError
      else
        let dt := datetime_of_seconds (sec + utcoffset sec) us in
        if (year dt <? MINYEAR) || (MAXYEAR <? year dt) then Raise ValueError
        else Ok dt
  end.

(* ================================================================== *)
(** ** Values

    What [json.loads] builds, and the [datetime] objects the conversions
    add.  A [dict] keeps its items in insertion order. *)

#[warnings="-register-all"]
Inductive pyval : Type :=
| VNone
| VBool (b : bool)
| VInt (n : Z)
| VFloat (x : float)
| VStr (s : string)
| VList (xs : list pyval)
| VDict (items : list (string * pyval))
| VDatetime (t : datetime).

Definition NaN : pyval := VFloat S754_nan.

Fixpoint dict_lookup (key : string) (items : list (string * pyval)) : option pyval :=
  match items with
  | [] => None
  | (k, v) :: items' => if String.eqb k key then Some v else dict_lookup key items'
  end.

(** [isinstance(v, dict)]. *)
Definition isinstance_dict (v : pyval) : bool :=
  match v with
  | VDict _ => true
  | _ => false
  end.

(** [key in v], evaluated by the scripts on a [dict] only. *)
Definition contains (key : string) (v : pyval) : bool :=
  match v with
  | VDict items =>
      match dict_lookup key items with
      | Some _ => true
      | None => false
      end
  | _ => false
  end.

(** [v[key]] for a [str] key. *)
Definition getitem (v : pyval) (key : string) : result pyval :=
  match v with
  | VDict items =>
      match dict_lookup key items with
      | Some x => Ok x
      | None => Raise KeyError
      end
  | _ => Raise TypeError
  end.

(** [v.get(key)] on a [dict]. *)
Definition dict_get (v : pyval) (key : string) : result pyval :=
  match v with
  | VDict items =>
      match dict_lookup key items with
      | Some x => Ok x
      | None => Ok VNone
      end
  | _ => Raise AttributeError
  end.

(** [a / b]: defined on numbers ([bool] is a subclass of [int]),
    [TypeError] on anything else. *)
Definition as_number (v : pyval) : option (Z + float) :=
  match v with
  | VBool b => Some (inl (if b then 1 else 0))
  | VInt n => Some (inl n)
  | VFloat x => Some (inr x)
  | _ => None
  end.

Definition truediv (a b : pyval) : result float :=
  match as_number a, as_number b with
  | Some (inl m), Some (inl n) => int_truediv m n
  | Some (inl m), Some (inr y) => x <- float_of_int m ;; float_truediv x y
  | Some (inr x), Some (inl n) => y <- float_of_int n ;; float_truediv x y
  | Some (inr x), Some (inr y) => float_truediv x y
  | _, _ => Raise TypeError
  end.

(* ================================================================== *)
(** ** pandas

    Row and column labels are integers or strings.  A [Series] is a named
    column of values with its row labels; a [DataFrame] is a list of row
    labels and, for every column in order, its label and its cells. *)

Inductive label : Type :=
| LInt (i : Z)
| LStr (s : string).

Definition label_eqb (a b : label) : bool :=
  match a, b with
  | LInt i, LInt j => i =? j
  | LStr s, LStr t => String.eqb s t
  | _, _ => false
  end.

Record Series : Type := mkSeries {
  s_name : option label;
  s_index : list label;
  s_values : list pyval
}.

Record DataFrame : Type := mkDataFrame {
  df_index : list label;
  df_data : list (label * list pyval)
}.

(** What a variable called [df] may hold. *)
Inductive pandas_obj : Type :=
| Frame (df : DataFrame)
| Ser (s : Series).

(** [isinstance(df, pd.Series)]. *)
Definition isinstance_Series (df : pandas_obj) : bool :=
  match df with
  | Ser _ => true
  | Frame _ => false
  end.

Definition RangeIndex (n : nat) : list label :=
  map (fun i => LInt (Z.of_nat i)) (seq 0 n).

Definition column_labels (df : DataFrame) : list label := map fst (df_data df).

Definition has_column (df : DataFrame) (col : label) : bool :=
  existsb (label_eqb col) (column_labels df).

Fixpoint column_values (col : label) (data : list (label * list pyval))
  : option (list pyval) :=
  match data with
  | [] => None
  | (l, vs) :: data' => if label_eqb l col then Some vs else column_values col data'
  end.

(** [df[col]]: the column as a [Series] on the same rows. *)
Definition frame_getitem (df : DataFrame) (col : string) : result Series :=
  match column_values (LStr col) (df_data df) with
  | Some vs => Ok (mkSeries (Some (LStr col)) (df_index df) vs)
  | None => Raise KeyError
  end.

(** The cells [new] for a column labelled [col], any other column as it
    is. *)
Definition set_column (col : label) (new : list pyval) (c : label * list pyval)
  : label * list pyval :=
  if label_eqb (fst c) col then (fst c, new) else c.

(** [df[col] = s] for a series [s] on the rows of [df]: an existing column
    keeps its place, a new one goes last. *)
Definition frame_setitem (df : DataFrame) (col : string) (s : Series) : DataFrame :=
  mkDataFrame (df_index df)
    (if has_column df (LStr col)
     then map (set_column (LStr col) (s_values s)) (df_data df)
     else df_data df ++ [(LStr col, s_values s)]).

(** [df.drop(col, axis=1)]: a new frame without the column. *)
Definition drop_column (df : DataFrame) (col : string) : result DataFrame :=
  if has_column df (LStr col)
  then Ok (mkDataFrame (df_index df)
             (filter (fun c => negb (label_eqb (fst c) (LStr col))) (df_data df)))
  else Raise KeyError.

(** [s.apply(f)]: [f] on every value, in row order. *)
Definition Series_apply (s : Series) (f : pyval -> result pyval) : result Series :=
  vs <- mapM f (s_values s) ;; Ok (mkSeries (s_name s) (s_index s) vs).

Definition name_or_0 (s : Series) : label :=
  match s_name s with
  | Some l => l
  | None => LInt 0
  end.

(** [pd.DataFrame(s)] for a series: one column, the same rows. *)
Definition DataFrame_of_Series (s : Series) : DataFrame :=
  mkDataFrame (s_index s) [(name_or_0 s, s_values s)].

(** [pd.DataFrame([s])] for a series: one row, a column per label of [s]. *)
Definition DataFrame_of_row (s : Series) : DataFrame :=
  mkDataFrame [name_or_0 s]
    (map (fun lv => (fst lv, [snd lv])) (combine (s_index s) (s_values s))).

(** [pd.DataFrame()]. *)
Definition DataFrame_empty : DataFrame := mkDataFrame [] [].

Definition dict_keys (v : pyval) : list string :=
  match v with
  | VDict items => map fst items
  | _ => []
  end.

Definition add_key (seen : list string) (k : string) : list string :=
  if existsb (String.eqb k) seen then seen else seen ++ [k].

(** Keys of the records in the order of their first appearance. *)
Definition record_keys (data : list pyval) : list string :=
  fold_left (fun seen r => fold_left add_key (dict_keys r) seen) data [].

(** A missing key gives a NaN cell. *)
Definition cell (key : string) (r : pyval) : pyval :=
  match r with
  | VDict items =>
      match dict_lookup key items with
      | Some v => v
      | None => NaN
      end
  | _ => NaN
  end.

(** [pd.DataFrame(data)] for a list of dicts: a row per record, a column
    per key. *)
Definition DataFrame_of_records (data : list pyval) : DataFrame :=
  mkDataFrame (RangeIndex (List.length data))
    (map (fun k => (LStr k, map (cell k) data)) (record_keys data)).

(* ================================================================== *)
(** ** The world outside the scripts

    The library calls whose results depend on files, on the machine or on
    code outside the repository. *)

Record Env : Type := mkEnv {
  (** [json.loads(line)]; a line that is not JSON raises [JSONDecodeError]. *)
  json_loads : string -> result pyval;
  (** [pd.read_json(path, compression='gzip', lines=True)]. *)
  read_json : string -> result pandas_obj;
  (** The lines, with their line ends, that iterating over
      [gzip.open(path, 'rt', encoding='utf-8')] yields, or the exception
      that opening or reading raises. *)
  gzip_open : string -> result (list string);
  (** [pd.DataFrame(data)] for a list that does not hold dicts only. *)
  DataFrame_of_list : list pyval -> result DataFrame;
  (** Offset of local time from UTC, in seconds east, at an instant. *)
  utcoffset : Z -> Z
}.

(** [pd.DataFrame(data)] for a list. *)
Definition pd_DataFrame (env : Env) (data : list pyval) : result DataFrame :=
  if forallb isinstance_dict data then Ok (DataFrame_of_records data)
  else DataFrame_of_list env data.

(** [for x in xs: body], the body updating one variable. *)
Fixpoint for_each {A S : Type} (xs : list A) (body : S -> A -> result S) (s : S)
  : result S :=
  match xs with
  | [] => Ok s
  | x :: xs' => s' <- body s x ;; for_each xs' body s'
  end.

(* ================================================================== *)
(** ** The conversions, common to both scripts

    [convert_oid] and [convert_date] read the same in [abc.py]
    (lines 36-52) and in [import gzip.py] (lines 38-54). *)

Definition convert_oid (value : pyval) : result pyval :=
  if isinstance_dict value && contains "$oid" value
  then getitem value "$oid"
  else Ok value.

Definition convert_date (env : Env) (value : pyval) : result pyval :=
  if isinstance_dict value && contains "$date" value
  then d <- getitem value "$date" ;;
       t <- truediv d (VInt 1000) ;;
       dt <- fromtimestamp (utcoffset env) t ;;
       Ok (VDatetime dt)
  else Ok value.

Definition oid_columns : list string := ["_id"; "userId"; "brand_id"].

Definition date_columns : list string :=
  ["createdDate"; "lastLogin"; "purchaseDate"; "dateScanned"; "finishedDate";
   "modifyDate"; "pointsAwardedDate"].

(** [if col in df.columns: df[col] = df[col].apply(f)]. *)
Definition convert_column (f : pyval -> result pyval) (df : DataFrame) (col : string)
  : result DataFrame :=
  if has_column df (LStr col)
  then s <- frame_getitem df col ;;
       s' <- Series_apply s f ;;
       Ok (frame_setitem df col s')
  else Ok df.

(** The base name of the fallback and its loop over the lines, the same in
    both scripts ([abc.py] lines 22-32, [import gzip.py] lines 23-31). *)
Definition base_name (file_path : string) : result string :=
  seg <- last_item (split "/" file_path) ;; Ok (replace seg ".gz" "").

Definition parse_line (env : Env) (base_name : string) (data : list pyval)
  (line : string) : result (list pyval) :=
  if str_bool (strip line) && negb (startswith line base_name)
  then match json_loads env line with
       | Ok v => Ok (data ++ [v])
       | Raise JSONDecodeError => Ok data
       | Raise e => Raise e
       end
  else Ok data.

Definition fallback_data (env : Env) (file_path : string) : result (list pyval) :=
  base_name <- base_name file_path ;;
  f <- gzip_open env file_path ;;
  for_each f (parse_line env base_name) [].

(* ================================================================== *)
(** ** [data/input_data/abc.py] *)

Module Abc.

(** Lines 7-33.  The message the handler prints is not modelled. *)
Definition load_gzipped_json (env : Env) (file_path : string) : result pandas_obj :=
  match read_json env file_path with
  | Ok df => Ok df
  | Raise e =>
      if is_ValueError e
      then data <- fallback_data env file_path ;;
           df <- pd_DataFrame env data ;;
           Ok (Frame df)
      else Raise e
  end.

(** Lines 54-68. *)
Definition convert_cpg (value : pyval) : result pyval :=
  if isinstance_dict value && contains "$id" value && contains "$ref" value
  then id <- getitem value "$id" ;;
       cpg_id <- (if isinstance_dict id && contains "$oid" id
                  then getitem id "$oid"
                  else Ok id) ;;
       cpg_ref <- dict_get value "$ref" ;;
       Ok (VDict [("cpg_id", cpg_id); ("cpg_ref", cpg_ref)])
  else Ok value.

(** Lines 71-93.  On a [Series] the first test, [col in df.columns],
    raises: a series has no attribute [columns]. *)
Definition apply_conversions (env : Env) (df : pandas_obj) : result pandas_obj :=
  match df with
  | Ser _ => Raise AttributeError
  | Frame df =>
      df <- for_each oid_columns (convert_column convert_oid) df ;;
      df <- for_each date_columns (convert_column (convert_date env)) df ;;
      df <- convert_column convert_cpg df "cpg" ;;
      Ok (Frame df)
  end.

(** Lines 109-111, and 116-118 with [cpg] for the column: the column is
    read, made a frame of its own, and dropped from its table.  The result
    is the new frame and the table without the column. *)
Definition extract (col : string) (df : DataFrame) : result (DataFrame * DataFrame) :=
  s <- frame_getitem df col ;;
  let s_df := DataFrame_of_Series s in
  df' <- drop_column df col ;;
  Ok (s_df, df').

Definition rewardsReceiptItemList_df (receipts_df : DataFrame)
  : result (DataFrame * DataFrame) :=
  extract "rewardsReceiptItemList" receipts_df.

Definition cpg_df (brands_df : DataFrame) : result (DataFrame * DataFrame) :=
  extract "cpg" brands_df.

(** Lines 124-125 of [abc.py], 104-105 of [import gzip.py]:
    [for name, df in dataframes.items(): dataframes[name] = apply_conversions(df)]. *)
Definition convert_all (env : Env) (dataframes : list (string * pandas_obj))
  : result (list (string * pandas_obj)) :=
  mapM (fun item => df <- apply_conversions env (snd item) ;; Ok (fst item, df))
       dataframes.

(** Lines 109-132, on the tables that the loads of lines 108, 113 and 115
    return: the two extractions, the dictionary of the five tables, the
    conversions, and the column that line 132 reads from [cpg_df], which
    is the object the loop converted.  What is printed is not modelled. *)
Definition script (env : Env) (receipts_df : DataFrame) (users_df : pandas_obj)
  (brands_df : DataFrame) : result (list (string * pandas_obj)) :=
  receipts <- rewardsReceiptItemList_df receipts_df ;;
  brands <- cpg_df brands_df ;;
  dataframes <- convert_all env
    [("receipts", Frame (snd receipts)); ("users", users_df);
     ("brands", Frame (snd brands));
     ("rewardsReceiptItemList_df", Frame (fst receipts));
     ("cpg_df", Frame (fst brands))] ;;
  match nth_error dataframes 4 with
  | Some (_, Frame cpg_df) => _ <- frame_getitem cpg_df "cpg_ref" ;; Ok dataframes
  | _ => Raise AttributeError (* does not arise: five entries, all frames *)
  end.

End Abc.

(* ================================================================== *)
(** ** [data/input_data/import gzip.py] *)

Module ImportGzip.

(** [if isinstance(df, pd.Series): df = pd.DataFrame([df])]. *)
Definition wrap_Series (df : pandas_obj) : pandas_obj :=
  if isinstance_Series df
  then match df with
       | Ser s => Frame (DataFrame_of_row s)
       | Frame _ => df
       end
  else df.

(** Lines 6-35, with the test on the result of both strategies. *)
Definition load_gzipped_json (env : Env) (file_path : string) : result pandas_obj :=
  match read_json env file_path with
  | Ok df => Ok (wrap_Series df)
  | Raise e =>
      if is_ValueError e
      then data <- fallback_data env file_path ;;
           df <- pd_DataFrame env data ;;
           Ok (wrap_Series (Frame df))
      else Raise e
  end.

(** Lines 56-74: as in [abc.py], without the conversion of [cpg]. *)
Definition apply_conversions (env : Env) (df : pandas_obj) : result pandas_obj :=
  match df with
  | Ser _ => Raise AttributeError
  | Frame df =>
      df <- for_each oid_columns (convert_column convert_oid) df ;;
      df <- for_each date_columns (convert_column (convert_date env)) df ;;
      Ok (Frame df)
  end.

(** Lines 89-93: the column, when the table has it, is kept as it is read,
    a [Series], and dropped from the table; without it the table stays and
    the extracted frame is empty. *)
Definition rewardsReceiptItemList_df (receipts_df : DataFrame)
  : result (pandas_obj * DataFrame) :=
  if has_column receipts_df (LStr "rewardsReceiptItemList")
  then s <- frame_getitem receipts_df "rewardsReceiptItemList" ;;
       df' <- drop_column receipts_df "rewardsReceiptItemList" ;;
       Ok (Ser s, df')
  else Ok (Frame DataFrame_empty, receipts_df).

(** Lines 77-81. *)
Definition file_paths : list (string * string) :=
  [("receipts", "data/input_data/receipts.json.gz");
   ("users", "data/input_data/users.json.gz");
   ("brands", "data/input_data/brands.json.gz")].

(** [file_paths[key]]. *)
Fixpoint lookup_path (key : string) (paths : list (string * string)) : result string :=
  match paths with
  | [] => Raise KeyError
  | (k, p) :: paths' => if String.eqb k key then Ok p else lookup_path key paths'
  end.

Definition convert_all (env : Env) (dataframes : list (string * pandas_obj))
  : result (list (string * pandas_obj)) :=
  mapM (fun item => df <- apply_conversions env (snd item) ;; Ok (fst item, df))
       dataframes.

(** Lines 84-105: the three loads, the extraction, the dictionary of the
    four tables and the conversions.  The test [in receipts_df.columns]
    needs a frame.  What is printed is not modelled. *)
Definition script (env : Env) : result (list (string * pandas_obj)) :=
  receipts_path <- lookup_path "receipts" file_paths ;;
  receipts_df <- load_gzipped_json env receipts_path ;;
  users_path <- lookup_path "users" file_paths ;;
  users_df <- load_gzipped_json env users_path ;;
  brands_path <- lookup_path "brands" file_paths ;;
  brands_df <- load_gzipped_json env brands_path ;;
  match receipts_df with
  | Ser _ => Raise AttributeError
  | Frame receipts_df =>
      extracted <- rewardsReceiptItemList_df receipts_df ;;
      convert_all env
        [("receipts", Frame (snd extracted)); ("users", users_df);
         ("brands", brands_df); ("rewardsReceiptItemList", fst extracted)]
  end.

End ImportGzip.

(* ================================================================== *)
(** ** The encoded shapes of the data model, and sample data *)

(** [{"$oid": S}]. *)
Definition ObjectIdRef (S : string) : pyval := VDict [("$oid", VStr S)].

Definition is_ObjectIdRef (v : pyval) : bool :=
  match v with
  | VDict [(k, VStr _)] => String.eqb k "$oid"
  | _ => false
  end.

(** [{"$date": N}]. *)
Definition EncodedDate (N : Z) : pyval := VDict [("$date", VInt N)].

(** [{"$id": id, "$ref": R}]. *)
Definition CrossRef (id : pyval) (R : string) : pyval :=
  VDict [("$id", id); ("$ref", VStr R)].

(** The pair [convert_cpg] builds. *)
Definition cpg_pair (cpg_id cpg_ref : pyval) : pyval :=
  VDict [("cpg_id", cpg_id); ("cpg_ref", cpg_ref)].

(** A quotation mark and a line end. *)
Definition dq : string := String (ascii_of_nat 34) EmptyString.
Definition nl : string := String (ascii_of_nat 10) EmptyString.

(** One line of a users export, [{"_id": {"$oid": "<oid>"}}], and the
    record it stands for. *)
Definition user_line (oid : string) : string :=
  ("{" ++ dq ++ "_id" ++ dq ++ ": {" ++ dq ++ "$oid" ++ dq ++ ": "
       ++ dq ++ oid ++ dq ++ "}}" ++ nl)%string.

Definition user_record (oid : string) : pyval := VDict [("_id", ObjectIdRef oid)].

(** A sample world.  Its JSON reader knows the two user lines and rejects
    every other line; it holds three files that [pd.read_json] rejects, a
    users export under a header line, one with a broken second line and
    one whose name is a brace, and one file that [pd.read_json] reads as a
    single record; its clock is on UTC. *)
Definition sample_loads (line : string) : result pyval :=
  if String.eqb line (user_line "abc123") then Ok (user_record "abc123")
  else if String.eqb line (user_line "def456") then Ok (user_record "def456")
  else Raise JSONDecodeError.

Definition users_path : string := "data/input_data/users.json.gz".
Definition broken_path : string := "data/input_data/broken.json.gz".
Definition brace_path : string := "data/input_data/{.gz".
Definition single_path : string := "data/input_data/single.json.gz".

Definition users_lines : list string :=
  [("users.json.gz" ++ nl)%string; user_line "abc123"; user_line "def456"].

Definition broken_lines : list string :=
  [user_line "abc123"; ("{oops" ++ nl)%string; user_line "def456"].

Definition single_record : Series :=
  mkSeries None [LStr "_id"] [ObjectIdRef "abc123"].

Definition sample_gzip_open (path : string) : result (list string) :=
  if String.eqb path users_path then Ok users_lines
  else if String.eqb path broken_path then Ok broken_lines
  else if String.eqb path brace_path then Ok (tl users_lines)
  else Raise FileNotFoundError.

Definition sample_read_json (path : string) : result pandas_obj :=
  if String.eqb path single_path then Ok (Ser single_record)
  else match sample_gzip_open path with
       | Ok _ => Raise ValueError
       | Raise e => Raise e
       end.

Definition sample_env : Env :=
  mkEnv sample_loads sample_read_json sample_gzip_open
        (fun _ => Raise AttributeError) (fun _ => 0).



(** The world of [env] in which every compressed file holds [lines]. *)
Definition with_lines (env : Env) (lines : list string) : Env :=
  mkEnv (json_loads env) (read_json env) (fun _ => Ok lines)
        (DataFrame_of_list env) (utcoffset env).

(** A line the fallback parses: not blank, not starting with the token. *)
Definition kept (base_name line : string) : bool :=
  str_bool (strip line) && negb (startswith line base_name).

(** The values of the parsed lines that are JSON, in the order of the
    lines. *)
Definition parsed_objects (env : Env) (base_name : string) (lines : list string)
  : list pyval :=
  flat_map (fun line =>
              if kept base_name line
              then match json_loads env line with
                   | Ok v => [v]
                   | Raise _ => []
                   end
              else []) lines.

(** [json.loads] raises nothing but [JSONDecodeError] on the lines of the
    file, and what it reads from them are JSON objects. *)
Definition lines_of (env : Env) (file_path line : string) : Prop :=
  exists lines, gzip_open env file_path = Ok lines /\ In line lines.

Definition json_lines (env : Env) (file_path : string) : Prop :=
  forall line, lines_of env file_path line ->
    match json_loads env line with
    | Ok v => isinstance_dict v = true
    | Raise e => e = JSONDecodeError
    end.

(** The primary strategy gave up: [pd.read_json] raised a [ValueError]. *)
Definition falls_back (env : Env) (file_path : string) : Prop :=
  exists e, read_json env file_path = Raise e /\ is_ValueError e = true.


(** No character [c] in [s]. *)
Fixpoint no_char (c : ascii) (s : string) : bool :=
  match s with
  | EmptyString => true
  | String a s' => negb (Ascii.eqb a c) && no_char c s'
  end.

(** The frame of a conversion: [df'] has the rows and the columns of [df],
    in the same order, every column is as long as before, and the cells of
    every column whose label is not in [cols] are those of [df]. *)
Definition unchanged_outside (cols : list label) (df df' : DataFrame) : Prop :=
  df_index df' = df_index df /\
  column_labels df' = column_labels df /\
  (forall l, option_map (@List.length pyval) (column_values l (df_data df'))
             = option_map (@List.length pyval) (column_values l (df_data df))) /\
  (forall l, ~ In l cols ->
             column_values l (df_data df') = column_values l (df_data df)).

(** [parent] is [df] without its column [col]: the same rows, the other
    columns in their order and with their cells. *)
Definition without_column (col : label) (df parent : DataFrame) : Prop :=
  df_index parent = df_index df /\
  has_column parent col = false /\
  column_labels parent = filter (fun l => negb (label_eqb l col)) (column_labels df) /\
  (forall l, l <> col ->
             column_values l (df_data parent) = column_values l (df_data df)).

(** The columns [apply_conversions] may rewrite in [abc.py] and in
    [import gzip.py]. *)
Definition converted_columns_abc : list label :=
  map LStr (oid_columns ++ date_columns ++ ["cpg"]).

Definition converted_columns_gzip : list label :=
  map LStr (oid_columns ++ date_columns).

(** Every cell of the date columns of [df] is one [convert_date] accepts. *)
Definition dates_convertible (env : Env) (df : DataFrame) : Prop :=
  forall col vs v,
    In col date_columns ->
    column_values (LStr col) (df_data df) = Some vs ->
    In v vs -> returns (convert_date env v).

(** Two receipts; the second has no [createdDate]. *)
Definition sample_receipts : DataFrame :=
  DataFrame_of_records
    [VDict [("_id", ObjectIdRef "abc123");
            ("createdDate", EncodedDate 1609687531000);
            ("rewardsReceiptItemList", VList [VDict [("barcode", VStr "4011")]]);
            ("totalSpent", VStr "26.00")];
     VDict [("_id", ObjectIdRef "def456");
            ("rewardsReceiptItemList", VList []);
            ("totalSpent", VStr "11.00")]].

(** Nothing but white space. *)
Fixpoint all_space (s : string) : bool :=
  match s with
  | EmptyString => true
  | String c s' => isspace c && all_space s'
  end.

(** A value whose ["$oid"] payload, when it has one, is not again a dict
    with the key ["$oid"]. *)
Definition plain_oid (v : pyval) : bool :=
  match v with
  | VDict items =>
      match dict_lookup "$oid" items with
      | Some x => negb (isinstance_dict x && contains "$oid" x)
      | None => true
      end
  | _ => true
  end.

Definition oid_cells_plain (df : DataFrame) : Prop :=
  forall col vs,
    In col oid_columns ->
    column_values (LStr col) (df_data df) = Some vs ->
    forallb plain_oid vs = true.

(** [f] returns every value of the column [col] of [df] as it is. *)
Definition fixed_column (f : pyval -> result pyval) (col : string) (df : DataFrame)
  : Prop :=
  forall vs, column_values (LStr col) (df_data df) = Some vs -> mapM f vs = Ok vs.

(** Every column has a cell per row. *)
Definition rectangular (df : DataFrame) : Prop :=
  Forall (fun c => List.length (snd c) = List.length (df_index df)) (df_data df).

(** A world as the sample one whose JSON reader gives up on one line, an
    integer of 4301 digits, with a [ValueError] that is not a
    [JSONDecodeError]. *)
Fixpoint nines (n : nat) : string :=
  match n with
  | O => EmptyString
  | S n' => String "9" (nines n')
  end.

Definition long_line : string :=
  ("{" ++ dq ++ "n" ++ dq ++ ": " ++ nines 4301 ++ "}" ++ nl)%string.

Definition limit_loads (line : string) : result pyval :=
  if String.eqb line long_line then Raise ValueError else sample_loads line.

Definition limit_env : Env :=
  mkEnv limit_loads (fun _ => Raise ValueError)
        (fun _ => Ok [user_line "abc123"; long_line; user_line "def456"])
        (fun _ => Raise AttributeError) (fun _ => 0).

(** The brands of the sample: one with a reference, one without. *)
Definition sample_brands : DataFrame :=
  DataFrame_of_records
    [VDict [("_id", ObjectIdRef "601ac115be37ce2ead437551");
            ("cpg", CrossRef (ObjectIdRef "601ac114be37ce2ead437550") "Cogs");
            ("name", VStr "test brand")];
     VDict [("_id", ObjectIdRef "601c5460be37ce2ead43755f");
            ("name", VStr "other brand")]].

(** The users of the sample, and a world in which [pd.read_json] reads the
    three exports, the receipts being [receipts]. *)
Definition sample_users : DataFrame :=
  DataFrame_of_records [user_record "abc123"; user_record "def456"].

Definition exports_read_json (receipts : DataFrame) (path : string) : result pandas_obj :=
  if String.eqb path "data/input_data/receipts.json.gz" then Ok (Frame receipts)
  else if String.eqb path "data/input_data/users.json.gz" then Ok (Frame sample_users)
  else if String.eqb path "data/input_data/brands.json.gz" then Ok (Frame sample_brands)
  else Raise FileNotFoundError.

Definition exports_env (receipts : DataFrame) : Env :=
  mkEnv sample_loads (exports_read_json receipts) sample_gzip_open
        (fun _ => Raise AttributeError) (fun _ => 0).

(* ================================================================== *)
(** * Properties *)

(** ** Lookups *)

Lemma contains_lookup key items :
  contains key (VDict items) = true <-> exists x, dict_lookup key items = Some x.
Proof.
  simpl. destruct (dict_lookup key items) as [x|].
  - split; [eauto | reflexivity].
  - split; [discriminate | intros [x H]; discriminate].
Qed.

Lemma getitem_contains key v :
  isinstance_dict v && contains key v = true -> returns (getitem v key).
Proof.
  destruct v; simpl; try discriminate.
  destruct (dict_lookup key items) as [x|]; [intros _; exists x; reflexivity | discriminate].
Qed.

Lemma guard_lookup key items x :
  dict_lookup key items = Some x ->
  isinstance_dict (VDict items) && contains key (VDict items) = true.
Proof. intros H. simpl. rewrite H. reflexivity. Qed.

(** ** [convert_oid] *)

Lemma convert_oid_lookup items x :
  dict_lookup "$oid" items = Some x -> convert_oid (VDict items) = Ok x.
Proof.
  intros H. unfold convert_oid. rewrite (guard_lookup _ _ _ H).
  simpl. rewrite H. reflexivity.
Qed.

Lemma convert_oid_other v :
  isinstance_dict v && contains "$oid" v = false -> convert_oid v = Ok v.
Proof. intros H. unfold convert_oid. rewrite H. reflexivity. Qed.

Lemma convert_oid_returns v : returns (convert_oid v).
Proof.
  unfold convert_oid.
  destruct (isinstance_dict v && contains "$oid" v) eqn:G.
  - apply getitem_contains, G.
  - exists v; reflexivity.
Qed.

(** C1, as the spec states it, fails: [{"$oid": 5}] is not shaped
    [{"$oid": S}] with [S] a string, and is not returned unchanged. *)
Lemma convert_oid_not_identity_off_shape :
  ~ (forall v, is_ObjectIdRef v = false -> convert_oid v = Ok v).
Proof.
  intros H. specialize (H (VDict [("$oid", VInt 5)]) eq_refl). discriminate H.
Qed.

(** C1, amended: [convert_oid] of [{"$oid": S}] is [S]; more generally a
    dict that has the key ["$oid"] is converted to what it holds under that
    key, whatever that is and whatever other keys the dict has; every
    other value, a dict without the key or not a dict, is returned as it
    is. *)
Theorem convert_oid_spec :
  (forall S, convert_oid (ObjectIdRef S) = Ok (VStr S)) /\
  (forall items x, dict_lookup "$oid" items = Some x ->
                   convert_oid (VDict items) = Ok x) /\
  (forall v, isinstance_dict v && contains "$oid" v = false ->
             convert_oid v = Ok v).
Proof.
  split; [ | split ].
  - intros S. reflexivity.
  - exact convert_oid_lookup.
  - exact convert_oid_other.
Qed.

Lemma convert_oid_spec_witness :
  convert_oid (VDict [("$oid", VStr "abc123"); ("n", VInt 1)]) = Ok (VStr "abc123")
  /\ convert_oid (VStr "abc123") = Ok (VStr "abc123").
Proof.
  split.
  - apply (proj1 (proj2 convert_oid_spec)). reflexivity.
  - apply (proj2 (proj2 convert_oid_spec)). reflexivity.
Defined.

(** ** [convert_cpg] *)

Section ConvertCpg.

Variable items : list (string * pyval).
Variables id ref : pyval.
Hypothesis Hid : dict_lookup "$id" items = Some id.
Hypothesis Href : dict_lookup "$ref" items = Some ref.

Lemma convert_cpg_guard :
  isinstance_dict (VDict items) && contains "$id" (VDict items)
    && contains "$ref" (VDict items) = true.
Proof. simpl. rewrite Hid, Href. reflexivity. Qed.

Lemma convert_cpg_oid x :
  id = VDict x -> forall S, dict_lookup "$oid" x = Some S ->
  Abc.convert_cpg (VDict items) = Ok (cpg_pair S ref).
Proof.
  intros E S HS. unfold Abc.convert_cpg. rewrite convert_cpg_guard.
  simpl getitem. rewrite Hid. simpl bind. rewrite E.
  simpl. rewrite HS. simpl. rewrite Href. reflexivity.
Qed.

Lemma convert_cpg_plain :
  isinstance_dict id && contains "$oid" id = false ->
  Abc.convert_cpg (VDict items) = Ok (cpg_pair id ref).
Proof.
  intros G. unfold Abc.convert_cpg. rewrite convert_cpg_guard.
  simpl getitem. rewrite Hid. simpl bind. rewrite G.
  simpl. rewrite Href. reflexivity.
Qed.

End ConvertCpg.

Lemma convert_cpg_other v :
  isinstance_dict v && contains "$id" v && contains "$ref" v = false ->
  Abc.convert_cpg v = Ok v.
Proof. intros H. unfold Abc.convert_cpg. rewrite H. reflexivity. Qed.

Lemma convert_cpg_returns v : returns (Abc.convert_cpg v).
Proof.
  destruct (isinstance_dict v && contains "$id" v && contains "$ref" v) eqn:G.
  - destruct v; try discriminate G. simpl in G.
    destruct (dict_lookup "$id" items) as [id|] eqn:Hid; [ | discriminate G].
    destruct (dict_lookup "$ref" items) as [ref|] eqn:Href; [ | discriminate G].
    destruct (isinstance_dict id && contains "$oid" id) eqn:G'.
    + destruct id; try discriminate G'. simpl in G'.
      destruct (dict_lookup "$oid" items0) as [S|] eqn:HS; [ | discriminate G'].
      exists (cpg_pair S ref).
      eapply convert_cpg_oid; eauto.
    + exists (cpg_pair id ref). apply convert_cpg_plain; assumption.
  - exists v. apply convert_cpg_other, G.
Qed.

(** C6: a dict that holds [{"$oid": S}] under ["$id"] and [R] under
    ["$ref"] is converted to the pair of [S] and [R]; one that holds a bare
    string [S] under ["$id"] is converted to the pair of [S] and [R]; a
    value that is not a dict with both keys is returned as it is.  The
    pair is the dict [{'cpg_id': S, 'cpg_ref': R}]: the spec's [ref_id] and
    [ref_collection] are the script's keys [cpg_id] and [cpg_ref]. *)
Theorem convert_cpg_spec :
  (forall items S R,
      dict_lookup "$id" items = Some (ObjectIdRef S) ->
      dict_lookup "$ref" items = Some (VStr R) ->
      Abc.convert_cpg (VDict items) = Ok (VDict [("cpg_id", VStr S); ("cpg_ref", VStr R)])) /\
  (forall items S R,
      dict_lookup "$id" items = Some (VStr S) ->
      dict_lookup "$ref" items = Some (VStr R) ->
      Abc.convert_cpg (VDict items) = Ok (VDict [("cpg_id", VStr S); ("cpg_ref", VStr R)])) /\
  (forall v, isinstance_dict v && contains "$id" v && contains "$ref" v = false ->
             Abc.convert_cpg v = Ok v).
Proof.
  split; [ | split ].
  - intros items S R Hid Href.
    eapply convert_cpg_oid; [exact Hid | exact Href | reflexivity | reflexivity].
  - intros items S R Hid Href.
    eapply convert_cpg_plain; [exact Hid | exact Href | reflexivity].
  - exact convert_cpg_other.
Qed.

Lemma convert_cpg_spec_witness :
  Abc.convert_cpg (CrossRef (ObjectIdRef "601ac114be37ce2ead437550") "Cogs")
  = Ok (VDict [("cpg_id", VStr "601ac114be37ce2ead437550"); ("cpg_ref", VStr "Cogs")])
  /\ Abc.convert_cpg (CrossRef (VStr "601ac114be37ce2ead437550") "Cogs")
     = Ok (VDict [("cpg_id", VStr "601ac114be37ce2ead437550"); ("cpg_ref", VStr "Cogs")])
  /\ Abc.convert_cpg (VDict [("$id", VStr "601ac114be37ce2ead437550")])
     = Ok (VDict [("$id", VStr "601ac114be37ce2ead437550")]).
Proof.
  split; [ | split ].
  - apply (proj1 convert_cpg_spec); reflexivity.
  - apply (proj1 (proj2 convert_cpg_spec)); reflexivity.
  - apply (proj2 (proj2 convert_cpg_spec)); reflexivity.
Defined.

(** ** [convert_date] *)

Lemma convert_date_other env v :
  isinstance_dict v && contains "$date" v = false -> convert_date env v = Ok v.
Proof. intros H. unfold convert_date. rewrite H. reflexivity. Qed.

Lemma convert_date_lookup env items d :
  dict_lookup "$date" items = Some d ->
  convert_date env (VDict items)
  = (t <- truediv d (VInt 1000) ;;
     dt <- fromtimestamp (utcoffset env) t ;;
     Ok (VDatetime dt)).
Proof.
  intros H. unfold convert_date. rewrite (guard_lookup _ _ _ H).
  simpl getitem. rewrite H. reflexivity.
Qed.

Lemma truediv_not_a_number d b : as_number d = None -> truediv d b = Raise TypeError.
Proof. intros H. unfold truediv. rewrite H. reflexivity. Qed.

Lemma convert_date_TypeError env items d :
  dict_lookup "$date" items = Some d -> as_number d = None ->
  convert_date env (VDict items) = Raise TypeError.
Proof.
  intros H N. rewrite (convert_date_lookup env _ _ H), (truediv_not_a_number _ _ N).
  reflexivity.
Qed.

(** C3, as the spec states it, fails on its own example: a mapping with
    the key ["$date"] whose payload is not an integer makes [convert_date]
    raise. *)
Lemma convert_date_raises_on_text_payload :
  ~ (forall env items d,
        dict_lookup "$date" items = Some d -> (forall n, d <> VInt n) ->
        returns (convert_date env (VDict items))).
Proof.
  intros H.
  destruct (H sample_env [("$date", VStr "2021-01-03")] (VStr "2021-01-03") eq_refl)
    as [v Hv].
  - intros n. discriminate.
  - discriminate Hv.
Qed.

(** C3, amended: [convert_oid] and [convert_cpg] return on every value; a
    value that is not a dict with both ["$id"] and ["$ref"] passes through
    [convert_cpg] unchanged, and a dict with both whose ["$id"] is not a
    dict with ["$oid"] falls back to the ["$id"] value itself.
    [convert_date] returns unchanged every value that is not a dict with
    the key ["$date"], and raises [TypeError] on a dict whose ["$date"]
    payload is not a number. *)
Theorem partial_shapes :
  (forall v, returns (convert_oid v)) /\
  (forall v, returns (Abc.convert_cpg v)) /\
  (forall v, isinstance_dict v && contains "$id" v && contains "$ref" v = false ->
             Abc.convert_cpg v = Ok v) /\
  (forall items id ref,
      dict_lookup "$id" items = Some id -> dict_lookup "$ref" items = Some ref ->
      isinstance_dict id && contains "$oid" id = false ->
      Abc.convert_cpg (VDict items) = Ok (cpg_pair id ref)) /\
  (forall env v, isinstance_dict v && contains "$date" v = false ->
                 convert_date env v = Ok v) /\
  (forall env items d,
      dict_lookup "$date" items = Some d -> as_number d = None ->
      convert_date env (VDict items) = Raise TypeError).
Proof.
  repeat split.
  - exact convert_oid_returns.
  - exact convert_cpg_returns.
  - exact convert_cpg_other.
  - intros items id ref Hid Href G.
    eapply convert_cpg_plain; eassumption.
  - exact convert_date_other.
  - exact convert_date_TypeError.
Qed.

Lemma partial_shapes_witness :
  Abc.convert_cpg (VDict [("$id", ObjectIdRef "abc123")])
  = Ok (VDict [("$id", ObjectIdRef "abc123")])
  /\ Abc.convert_cpg (VDict [("$id", VInt 7); ("$ref", VStr "Cogs")])
     = Ok (cpg_pair (VInt 7) (VStr "Cogs"))
  /\ convert_date sample_env (VDict [("date", VInt 1609687531000)])
     = Ok (VDict [("date", VInt 1609687531000)])
  /\ convert_date sample_env (VDict [("$date", VStr "2021-01-03")]) = Raise TypeError.
Proof.
  destruct partial_shapes as (_ & _ & Hother & Hplain & Hdate & Hraise).
  split; [ | split; [ | split ] ].
  - apply Hother. reflexivity.
  - apply Hplain; reflexivity.
  - apply Hdate. reflexivity.
  - apply (Hraise sample_env _ (VStr "2021-01-03")); reflexivity.
Defined.

(** ** Frames *)

Lemma label_eqb_eq a b : label_eqb a b = true <-> a = b.
Proof.
  destruct a as [i|s], b as [j|t]; simpl; split; try discriminate; intros H.
  - apply Z.eqb_eq in H. congruence.
  - injection H as ->. apply Z.eqb_refl.
  - apply String.eqb_eq in H. congruence.
  - injection H as ->. apply String.eqb_refl.
Qed.

Lemma label_eqb_refl a : label_eqb a a = true.
Proof. apply label_eqb_eq. reflexivity. Qed.

Lemma label_eqb_neq a b : a <> b -> label_eqb a b = false.
Proof.
  intros N. destruct (label_eqb a b) eqn:E; [ | reflexivity].
  apply label_eqb_eq in E. contradiction.
Qed.

Lemma has_column_values df col :
  has_column df col = true <-> exists vs, column_values col (df_data df) = Some vs.
Proof.
  unfold has_column, column_labels. induction (df_data df) as [|[l vs] data IH]; simpl.
  - split; [discriminate | intros [vs H]; discriminate].
  - destruct (label_eqb col l) eqn:E.
    + apply label_eqb_eq in E. subst l. rewrite label_eqb_refl.
      split; [eauto | reflexivity].
    + rewrite label_eqb_neq.
      * exact IH.
      * intros ->. rewrite label_eqb_refl in E. discriminate.
Qed.

Lemma mapM_length {A B} (f : A -> result B) xs ys :
  mapM f xs = Ok ys -> List.length ys = List.length xs.
Proof.
  revert ys. induction xs as [|x xs IH]; simpl; intros ys H.
  - injection H as <-. reflexivity.
  - destruct (f x) as [y|e]; [ | discriminate H]. simpl in H.
    destruct (mapM f xs) as [ys'|e]; [ | discriminate H]. simpl in H.
    injection H as <-. simpl. f_equal. apply IH. reflexivity.
Qed.

Lemma mapM_returns {A B} (f : A -> result B) xs :
  (forall x, In x xs -> returns (f x)) -> returns (mapM f xs).
Proof.
  induction xs as [|x xs IH]; simpl; intros H.
  - exists []. reflexivity.
  - destruct (H x (or_introl eq_refl)) as [y ->].
    destruct IH as [ys ->]; [intros z Hz; apply H; right; exact Hz | ].
    exists (y :: ys). reflexivity.
Qed.

Section Setitem.

Variable col : label.
Variable new : list pyval.

Lemma setitem_labels data : map fst (map (set_column col new) data) = map fst data.
Proof.
  induction data as [|c data IH]; simpl; [reflexivity | ].
  rewrite IH. unfold set_column. destruct (label_eqb (fst c) col); reflexivity.
Qed.

Lemma setitem_other data l :
  l <> col -> column_values l (map (set_column col new) data) = column_values l data.
Proof.
  intros N. induction data as [|[k vs] data IH]; simpl; [reflexivity | ].
  unfold set_column at 1. simpl. destruct (label_eqb k col) eqn:E; simpl.
  - apply label_eqb_eq in E. subst k.
    rewrite (label_eqb_neq col l) by congruence. exact IH.
  - rewrite IH. reflexivity.
Qed.

Lemma setitem_same data old :
  column_values col data = Some old ->
  column_values col (map (set_column col new) data) = Some new.
Proof.
  induction data as [|[k vs] data IH]; simpl; [discriminate | ].
  unfold set_column at 1. simpl. destruct (label_eqb k col) eqn:E; simpl.
  - rewrite E. reflexivity.
  - rewrite E. exact IH.
Qed.

End Setitem.

Lemma unchanged_outside_refl cols df : unchanged_outside cols df df.
Proof. repeat split. Qed.

Lemma unchanged_outside_trans cols1 cols2 df1 df2 df3 :
  unchanged_outside cols1 df1 df2 -> unchanged_outside cols2 df2 df3 ->
  unchanged_outside (cols1 ++ cols2) df1 df3.
Proof.
  intros (I1 & L1 & N1 & V1) (I2 & L2 & N2 & V2). repeat split.
  - congruence.
  - congruence.
  - intros l. rewrite N2. apply N1.
  - intros l Hl. rewrite V2, V1; [reflexivity | | ]; intros Hin; apply Hl, in_or_app; auto.
Qed.

(** One column converted: what [convert_column] leaves alone. *)
Lemma convert_column_frame f df col df' :
  convert_column f df col = Ok df' -> unchanged_outside [LStr col] df df'.
Proof.
  unfold convert_column. destruct (has_column df (LStr col)) eqn:Hc.
  - destruct (proj1 (has_column_values _ _) Hc) as [vs Hvs].
    unfold frame_getitem. rewrite Hvs. simpl. unfold Series_apply. simpl.
    destruct (mapM f vs) as [vs'|e] eqn:Hm; [ | discriminate]. simpl.
    intros H. injection H as <-. unfold frame_setitem. rewrite Hc. simpl.
    repeat split; simpl.
    + unfold column_labels. simpl. apply setitem_labels.
    + intros l. destruct (label_eqb l (LStr col)) eqn:E.
      * apply label_eqb_eq in E. subst l.
        rewrite (setitem_same _ _ _ _ Hvs), Hvs. simpl.
        f_equal. eapply mapM_length, Hm.
      * rewrite setitem_other; [reflexivity | ].
        intros ->. rewrite label_eqb_refl in E. discriminate.
    + intros l Hl. apply setitem_other. intros ->. apply Hl. left. reflexivity.
  - intros H. injection H as <-. apply unchanged_outside_refl.
Qed.

Lemma convert_column_returns f df col :
  (forall vs v, column_values (LStr col) (df_data df) = Some vs -> In v vs ->
                returns (f v)) ->
  returns (convert_column f df col).
Proof.
  intros H. unfold convert_column. destruct (has_column df (LStr col)) eqn:Hc.
  - destruct (proj1 (has_column_values _ _) Hc) as [vs Hvs].
    unfold frame_getitem. rewrite Hvs. simpl. unfold Series_apply. simpl.
    destruct (mapM_returns f vs (fun v Hv => H vs v Hvs Hv)) as [vs' ->].
    simpl. eexists. reflexivity.
  - exists df. reflexivity.
Qed.

(** A loop of conversions over a list of column names. *)
Lemma for_each_frame f cols : forall df df',
  for_each cols (convert_column f) df = Ok df' ->
  unchanged_outside (map LStr cols) df df'.
Proof.
  induction cols as [|c cols IH]; simpl; intros df df' H.
  - injection H as <-. apply unchanged_outside_refl.
  - destruct (convert_column f df c) as [df1|e] eqn:H1; [ | discriminate H].
    simpl in H.
    apply (unchanged_outside_trans [LStr c] (map LStr cols) df df1 df').
    + apply (convert_column_frame _ _ _ _ H1).
    + apply IH, H.
Qed.

Lemma LStr_in c cols : In (LStr c) (map LStr cols) -> In c cols.
Proof.
  intros H. apply in_map_iff in H. destruct H as (c' & E & Hc).
  injection E as ->. exact Hc.
Qed.

Lemma for_each_returns f cols : forall df,
  NoDup cols ->
  (forall col vs v, In col cols ->
                    column_values (LStr col) (df_data df) = Some vs -> In v vs ->
                    returns (f v)) ->
  returns (for_each cols (convert_column f) df).
Proof.
  induction cols as [|c cols IH]; simpl; intros df ND H.
  - exists df. reflexivity.
  - inversion ND as [|? ? Hc ND']; subst.
    destruct (convert_column_returns f df c) as [df1 H1].
    { intros vs v. apply H. left. reflexivity. }
    rewrite H1. simpl. apply IH; [exact ND' | ].
    intros col vs v Hcol Hvs. apply (H col vs v); [right; exact Hcol | ].
    destruct (convert_column_frame _ _ _ _ H1) as (_ & _ & _ & V).
    rewrite <- V; [exact Hvs | ].
    intros [E|[]]. injection E as ->. contradiction.
Qed.

(** ** [apply_conversions] *)

Lemma oid_columns_return df :
  returns (for_each oid_columns (convert_column convert_oid) df).
Proof.
  apply for_each_returns.
  - unfold oid_columns. repeat constructor; simpl; intuition discriminate.
  - intros col vs v _ _ _. apply convert_oid_returns.
Qed.

Lemma date_columns_NoDup : NoDup date_columns.
Proof. unfold date_columns. repeat constructor; simpl; intuition discriminate. Qed.

Lemma date_columns_not_oid col : In col date_columns -> ~ In (LStr col) (map LStr oid_columns).
Proof.
  intros Hd Ho. apply LStr_in in Ho. unfold date_columns, oid_columns in *.
  simpl in Hd, Ho.
  repeat (destruct Hd as [Hd|Hd];
          [ subst col; repeat (destruct Ho as [Ho|Ho]; [discriminate Ho | ]); exact Ho | ]).
  exact Hd.
Qed.

Lemma date_columns_return env df :
  dates_convertible env df ->
  forall df1, unchanged_outside (map LStr oid_columns) df df1 ->
  returns (for_each date_columns (convert_column (convert_date env)) df1).
Proof.
  intros H df1 (_ & _ & _ & V). apply for_each_returns.
  - exact date_columns_NoDup.
  - intros col vs v Hcol Hvs Hv. apply (H col vs v Hcol); [ | exact Hv].
    rewrite <- V; [exact Hvs | ]. apply date_columns_not_oid, Hcol.
Qed.

Lemma abc_apply_conversions_frame env df r :
  Abc.apply_conversions env (Frame df) = Ok r ->
  exists df', r = Frame df' /\ unchanged_outside converted_columns_abc df df'.
Proof.
  unfold Abc.apply_conversions.
  destruct (for_each oid_columns (convert_column convert_oid) df) as [df1|e] eqn:H1;
    [ | discriminate]. cbn [bind].
  destruct (for_each date_columns (convert_column (convert_date env)) df1)
    as [df2|e] eqn:H2; [ | discriminate]. cbn [bind].
  destruct (convert_column Abc.convert_cpg df2 "cpg") as [df3|e] eqn:H3;
    [ | discriminate]. cbn [bind].
  intros H. injection H as <-. exists df3. split; [reflexivity | ].
  apply for_each_frame in H1, H2. apply convert_column_frame in H3.
  exact (unchanged_outside_trans _ _ _ _ _
           (unchanged_outside_trans _ _ _ _ _ H1 H2) H3).
Qed.

Lemma gzip_apply_conversions_frame env df r :
  ImportGzip.apply_conversions env (Frame df) = Ok r ->
  exists df', r = Frame df' /\ unchanged_outside converted_columns_gzip df df'.
Proof.
  unfold ImportGzip.apply_conversions.
  destruct (for_each oid_columns (convert_column convert_oid) df) as [df1|e] eqn:H1;
    [ | discriminate]. cbn [bind].
  destruct (for_each date_columns (convert_column (convert_date env)) df1)
    as [df2|e] eqn:H2; [ | discriminate]. cbn [bind].
  intros H. injection H as <-. exists df2. split; [reflexivity | ].
  apply for_each_frame in H1, H2.
  exact (unchanged_outside_trans _ _ _ _ _ H1 H2).
Qed.

Lemma apply_conversions_return env df :
  dates_convertible env df ->
  returns (Abc.apply_conversions env (Frame df))
  /\ returns (ImportGzip.apply_conversions env (Frame df)).
Proof.
  intros H. unfold Abc.apply_conversions, ImportGzip.apply_conversions.
  destruct (oid_columns_return df) as [df1 H1]. rewrite H1. cbn [bind].
  destruct (date_columns_return env df H df1 (for_each_frame _ _ _ _ H1)) as [df2 H2].
  rewrite H2. cbn [bind]. split.
  - destruct (convert_column_returns Abc.convert_cpg df2 "cpg") as [df3 H3].
    { intros vs v _ _. apply convert_cpg_returns. }
    rewrite H3. cbn [bind]. eexists. reflexivity.
  - eexists. reflexivity.
Qed.

(** C10: whatever [apply_conversions] returns for a table is a table with
    the same rows, the same columns in the same order and of the same
    length, whose cells differ at most in the columns [_id], [userId],
    [brand_id], the seven date columns and [cpg] ([import gzip.py] leaves
    [cpg] alone too); and it does return when [convert_date] accepts every
    cell of the date columns. *)
Theorem apply_conversions_frame env df :
  (forall r, Abc.apply_conversions env (Frame df) = Ok r ->
             exists df', r = Frame df' /\ unchanged_outside converted_columns_abc df df') /\
  (forall r, ImportGzip.apply_conversions env (Frame df) = Ok r ->
             exists df', r = Frame df' /\ unchanged_outside converted_columns_gzip df df') /\
  (dates_convertible env df ->
   returns (Abc.apply_conversions env (Frame df))
   /\ returns (ImportGzip.apply_conversions env (Frame df))).
Proof.
  split; [ | split ].
  - apply abc_apply_conversions_frame.
  - apply gzip_apply_conversions_frame.
  - apply apply_conversions_return.
Qed.

Lemma sample_receipts_convertible : dates_convertible sample_env sample_receipts.
Proof.
  intros col vs v Hcol Hvs Hv. simpl in Hcol.
  repeat (destruct Hcol as [Hcol|Hcol];
          [ subst col; vm_compute in Hvs; try discriminate Hvs | ]);
    [ | destruct Hcol ].
  injection Hvs as <-. simpl in Hv.
  destruct Hv as [<-|[<-|[]]]; eexists; vm_compute; reflexivity.
Defined.

Lemma apply_conversions_frame_witness :
  (exists df', unchanged_outside converted_columns_abc sample_receipts df')
  /\ returns (Abc.apply_conversions sample_env (Frame sample_receipts))
  /\ returns (ImportGzip.apply_conversions sample_env (Frame sample_receipts)).
Proof.
  destruct (apply_conversions_frame sample_env sample_receipts) as (Habc & _ & Hret).
  split.
  - destruct (Habc _ eq_refl) as (df' & _ & H). exists df'. exact H.
  - apply Hret. exact sample_receipts_convertible.
Defined.

(** ** Extraction of a nested column *)

Lemma filter_labels col data :
  map fst (filter (fun c : label * list pyval => negb (label_eqb (fst c) col)) data)
  = filter (fun l => negb (label_eqb l col)) (map fst data).
Proof.
  induction data as [|[l vs] data IH]; simpl; [reflexivity | ].
  destruct (label_eqb l col); simpl; rewrite IH; reflexivity.
Qed.

Lemma filter_other col data l :
  l <> col ->
  column_values l (filter (fun c : label * list pyval => negb (label_eqb (fst c) col)) data)
  = column_values l data.
Proof.
  intros N. induction data as [|[k vs] data IH]; simpl; [reflexivity | ].
  destruct (label_eqb k col) eqn:E; simpl.
  - apply label_eqb_eq in E. subst k.
    rewrite (label_eqb_neq col l) by congruence. exact IH.
  - rewrite IH. reflexivity.
Qed.

Lemma filter_absent col (ls : list label) :
  existsb (label_eqb col) (filter (fun l => negb (label_eqb l col)) ls) = false.
Proof.
  induction ls as [|l ls IH]; simpl; [reflexivity | ].
  destruct (label_eqb l col) eqn:E; simpl; [exact IH | ].
  rewrite IH, orb_false_r. apply label_eqb_neq.
  intros ->. rewrite label_eqb_refl in E. discriminate.
Qed.

Lemma drop_column_frame df col vs :
  column_values (LStr col) (df_data df) = Some vs ->
  exists parent, drop_column df col = Ok parent /\ without_column (LStr col) df parent.
Proof.
  intros H. unfold drop_column.
  rewrite (proj2 (has_column_values df (LStr col)) (ex_intro _ vs H)).
  eexists. split; [reflexivity | ]. repeat split; simpl.
  - unfold has_column, column_labels. simpl. rewrite filter_labels. apply filter_absent.
  - unfold column_labels. simpl. apply filter_labels.
  - intros l N. apply filter_other, N.
Qed.



(** ** The fallback of the loader *)

Lemma for_each_app {A S} (body : S -> A -> result S) xs ys : forall s,
  for_each (xs ++ ys) body s = (s' <- for_each xs body s ;; for_each ys body s').
Proof.
  induction xs as [|x xs IH]; simpl; intros s; [reflexivity | ].
  destruct (body s x) as [s1|e]; simpl; [apply IH | reflexivity].
Qed.

Lemma parse_line_kept env b data line :
  kept b line = true ->
  parse_line env b data line
  = match json_loads env line with
    | Ok v => Ok (data ++ [v])
    | Raise JSONDecodeError => Ok data
    | Raise e => Raise e
    end.
Proof. unfold parse_line, kept. intros ->. reflexivity. Qed.

Lemma parse_line_skipped env b data line :
  kept b line = false -> parse_line env b data line = Ok data.
Proof. unfold parse_line, kept. intros ->. reflexivity. Qed.

(** A line that starts with the token is skipped before it is parsed. *)
Lemma parse_line_header env b data line :
  startswith line b = true -> parse_line env b data line = Ok data.
Proof.
  intros H. apply parse_line_skipped. unfold kept. rewrite H.
  apply andb_false_r.
Qed.

(** The loop collects the parsed values in the order of the lines. *)
Lemma parse_lines env b lines : forall data,
  (forall line e, In line lines -> json_loads env line = Raise e -> e = JSONDecodeError) ->
  for_each lines (parse_line env b) data = Ok (data ++ parsed_objects env b lines).
Proof.
  induction lines as [|line lines IH]; simpl; intros data H.
  - rewrite app_nil_r. reflexivity.
  - assert (IH' : forall data',
               for_each lines (parse_line env b) data'
               = Ok (data' ++ parsed_objects env b lines)).
    { intros data'. apply IH. intros l e Hl. apply H. right. exact Hl. }
    destruct (kept b line) eqn:K.
    + rewrite (parse_line_kept _ _ _ _ K).
      destruct (json_loads env line) as [v|e] eqn:J.
      * cbn [bind]. rewrite IH', <- app_assoc. reflexivity.
      * rewrite (H line e (or_introl eq_refl) J). cbn [bind]. apply IH'.
    + rewrite (parse_line_skipped _ _ _ _ K). cbn [bind]. apply IH'.
Qed.

Lemma parsed_objects_dicts env b lines :
  (forall line v, In line lines -> json_loads env line = Ok v -> isinstance_dict v = true) ->
  forallb isinstance_dict (parsed_objects env b lines) = true.
Proof.
  intros H. apply forallb_forall. intros v Hv. unfold parsed_objects in Hv.
  apply in_flat_map in Hv. destruct Hv as (line & Hl & Hv).
  destruct (kept b line); [ | destruct Hv].
  destruct (json_loads env line) as [w|e] eqn:J; [ | destruct Hv].
  destruct Hv as [<-|[]]. apply (H line w Hl J).
Qed.

Lemma split_nonempty sep s : split sep s <> [].
Proof.
  destruct s as [|c s]; simpl; [discriminate | ].
  destruct (Ascii.eqb c sep); [discriminate | ].
  destruct (split sep s); discriminate.
Qed.

Lemma last_item_last xs : xs <> [] -> last_item xs = Ok (last xs "").
Proof.
  intros N. destruct (exists_last N) as (ys & y & ->).
  unfold last_item. rewrite rev_app_distr, last_last. reflexivity.
Qed.

Lemma base_name_eq file_path :
  base_name file_path = Ok (replace (last (split "/" file_path) "") ".gz" "").
Proof.
  unfold base_name. rewrite (last_item_last _ (split_nonempty _ _)). reflexivity.
Qed.

Lemma startswith_append b t : startswith (b ++ t) b = true.
Proof.
  induction b as [|c b IH]; simpl; [destruct t; reflexivity | ].
  rewrite Ascii.eqb_refl. exact IH.
Qed.

(** ** Tables of records *)

Lemma RangeIndex_length n : List.length (RangeIndex n) = n.
Proof. unfold RangeIndex. rewrite length_map, length_seq. reflexivity. Qed.










(** ** [load_gzipped_json] *)

Lemma json_lines_raise env file_path lines :
  json_lines env file_path -> gzip_open env file_path = Ok lines ->
  forall line e, In line lines -> json_loads env line = Raise e -> e = JSONDecodeError.
Proof.
  intros H Hg line e Hl J. specialize (H line (ex_intro _ lines (conj Hg Hl))).
  rewrite J in H. exact H.
Qed.

Lemma json_lines_dict env file_path lines :
  json_lines env file_path -> gzip_open env file_path = Ok lines ->
  forall line v, In line lines -> json_loads env line = Ok v -> isinstance_dict v = true.
Proof.
  intros H Hg line v Hl J. specialize (H line (ex_intro _ lines (conj Hg Hl))).
  rewrite J in H. exact H.
Qed.

Lemma fallback_data_lines env file_path lines :
  gzip_open env file_path = Ok lines ->
  fallback_data env file_path
  = for_each lines
      (parse_line env (replace (last (split "/" file_path) "") ".gz" "")) [].
Proof.
  intros Hg. unfold fallback_data. rewrite base_name_eq. cbn [bind].
  rewrite Hg. reflexivity.
Qed.


(** The fallback on a file of JSON object lines and lines that are not
    JSON: the table of the parsed objects. *)
Lemma fallback_table env file_path lines :
  json_lines env file_path -> gzip_open env file_path = Ok lines ->
  (data <- fallback_data env file_path ;; pd_DataFrame env data)
  = Ok (DataFrame_of_records
          (parsed_objects env (replace (last (split "/" file_path) "") ".gz" "") lines)).
Proof.
  intros H Hg. rewrite (fallback_data_lines _ _ _ Hg).
  rewrite (parse_lines _ _ _ _ (json_lines_raise _ _ _ H Hg)). cbn [bind app].
  unfold pd_DataFrame.
  rewrite (parsed_objects_dicts _ _ _ (json_lines_dict _ _ _ H Hg)). reflexivity.
Qed.

Section Load.

Variable env : Env.
Variable file_path : string.
Hypothesis Hjson : json_lines env file_path.

Lemma abc_load_fallback lines :
  gzip_open env file_path = Ok lines -> falls_back env file_path ->
  Abc.load_gzipped_json env file_path
  = Ok (Frame (DataFrame_of_records
                 (parsed_objects env (replace (last (split "/" file_path) "") ".gz" "")
                    lines))).
Proof.
  intros Hg (e & Hr & Hv). unfold Abc.load_gzipped_json. rewrite Hr, Hv.
  generalize (fallback_table env file_path lines Hjson Hg).
  destruct (fallback_data env file_path) as [data|e']; cbn [bind]; [ | discriminate].
  intros ->. reflexivity.
Qed.

Lemma gzip_load_fallback lines :
  gzip_open env file_path = Ok lines -> falls_back env file_path ->
  ImportGzip.load_gzipped_json env file_path
  = Ok (Frame (DataFrame_of_records
                 (parsed_objects env (replace (last (split "/" file_path) "") ".gz" "")
                    lines))).
Proof.
  intros Hg (e & Hr & Hv). unfold ImportGzip.load_gzipped_json. rewrite Hr, Hv.
  generalize (fallback_table env file_path lines Hjson Hg).
  destruct (fallback_data env file_path) as [data|e']; cbn [bind]; [ | discriminate].
  intros ->. reflexivity.
Qed.



End Load.


Lemma sample_loads_total line :
  match sample_loads line with
  | Ok v => isinstance_dict v = true
  | Raise e => e = JSONDecodeError
  end.
Proof.
  unfold sample_loads.
  destruct (String.eqb line (user_line "abc123")); [reflexivity | ].
  destruct (String.eqb line (user_line "def456")); reflexivity.
Defined.


Lemma fallback_data_with_lines env lines file_path :
  fallback_data (with_lines env lines) file_path
  = for_each lines
      (parse_line env (replace (last (split "/" file_path) "") ".gz" "")) [].
Proof. apply (fallback_data_lines (with_lines env lines)). reflexivity. Qed.

(** A line that starts with the token leaves no trace in the data,
    wherever it stands and whatever [json.loads] would make of it. *)
Lemma fallback_data_drops env file_path b pre line post :
  base_name file_path = Ok b -> startswith line b = true ->
  fallback_data (with_lines env (pre ++ line :: post)) file_path
  = fallback_data (with_lines env (pre ++ post)) file_path.
Proof.
  intros Hb Hs. rewrite base_name_eq in Hb. injection Hb as <-.
  rewrite !fallback_data_with_lines, !for_each_app.
  destruct (for_each pre _ []) as [data|e]; cbn [bind]; [ | reflexivity].
  simpl for_each. rewrite (parse_line_header _ _ _ _ Hs). reflexivity.
Qed.

(** C5: when the primary strategy gives up, the loader of either script
    returns for a file that opens with a header line, a line that starts
    with the base name, what it returns for the file without that line. *)
Theorem header_line_is_skipped env file_path b header lines :
  falls_back env file_path ->
  base_name file_path = Ok b ->
  startswith header b = true ->
  Abc.load_gzipped_json (with_lines env (header :: lines)) file_path
  = Abc.load_gzipped_json (with_lines env lines) file_path
  /\ ImportGzip.load_gzipped_json (with_lines env (header :: lines)) file_path
     = ImportGzip.load_gzipped_json (with_lines env lines) file_path.
Proof.
  intros (e & Hr & Hv) Hb Hs.
  pose proof (fallback_data_drops env file_path b [] header lines Hb Hs) as Hd.
  simpl app in Hd.
  unfold Abc.load_gzipped_json, ImportGzip.load_gzipped_json.
  change (read_json (with_lines env (header :: lines))) with (read_json env).
  change (read_json (with_lines env lines)) with (read_json env).
  rewrite Hr, Hv, Hd. split; reflexivity.
Qed.

(** The users export under its header line: two rows, as without it. *)
Lemma header_line_is_skipped_witness :
  Abc.load_gzipped_json (with_lines sample_env users_lines) users_path
  = Abc.load_gzipped_json (with_lines sample_env (tl users_lines)) users_path
  /\ ImportGzip.load_gzipped_json (with_lines sample_env users_lines) users_path
     = ImportGzip.load_gzipped_json (with_lines sample_env (tl users_lines)) users_path.
Proof.
  apply (header_line_is_skipped sample_env users_path "users.json"
           ("users.json.gz" ++ nl)%string (tl users_lines)).
  - exists ValueError. split; reflexivity.
  - reflexivity.
  - reflexivity.
Defined.

(** The scenario of the users export: the header line goes, the two
    records stay, and their identifiers are collapsed to strings. *)
Example users_end_to_end :
  (df <- Abc.load_gzipped_json sample_env users_path ;;
   Abc.apply_conversions sample_env df)
  = Ok (Frame (mkDataFrame [LInt 0; LInt 1]
                 [(LStr "_id", [VStr "abc123"; VStr "def456"])])).
Proof. reflexivity. Qed.

(** ** The base name *)

(** The last piece of [split] is the part of the string after its last
    separator. *)
Lemma split_last sep s :
  exists w ws dir,
    split sep s = w :: ws
    /\ s = (dir ++ last (w :: ws) "")%string
    /\ no_char sep (last (w :: ws) "") = true
    /\ (ws = [] -> dir = "")
    /\ (ws <> [] -> exists d, dir = (d ++ String sep "")%string).
Proof.
  induction s as [|c s IH].
  - exists "", [], "". simpl.
    split; [reflexivity | ]. split; [reflexivity | ]. split; [reflexivity | ].
    split; [reflexivity | intros N; contradiction].
  - destruct IH as (w & ws & dir & Hs & Hd & Hn & He & Hne).
    simpl split. destruct (Ascii.eqb c sep) eqn:E.
    + apply Ascii.eqb_eq in E. subst c. rewrite Hs.
      exists "", (w :: ws), (String sep dir).
      change (last ("" :: w :: ws) "") with (last (w :: ws) "").
      split; [reflexivity | ]. split; [simpl; f_equal; exact Hd | ].
      split; [exact Hn | ]. split; [discriminate | ].
      intros _. destruct ws as [|w' ws].
      * rewrite (He eq_refl). exists "". reflexivity.
      * destruct Hne as [d ->]; [discriminate | ].
        exists (String sep d). reflexivity.
    + rewrite Hs. destruct ws as [|w' ws].
      * exists (String c w), [], "". rewrite (He eq_refl) in Hd.
        simpl in Hd, Hn |- *.
        split; [reflexivity | ]. split; [f_equal; exact Hd | ].
        split; [rewrite E, Hn; reflexivity | ].
        split; [reflexivity | intros N; contradiction].
      * exists (String c w), (w' :: ws), (String c dir).
        change (last (String c w :: w' :: ws) "") with (last (w' :: ws) "").
        change (last (w :: w' :: ws) "") with (last (w' :: ws) "") in Hd, Hn.
        split; [reflexivity | ]. split; [simpl; f_equal; exact Hd | ].
        split; [exact Hn | ]. split; [discriminate | ].
        intros _. destruct Hne as [d ->]; [discriminate | ].
        exists (String c d). reflexivity.
Qed.

(** An occurrence of [.gz] is removed wherever it stands. *)
Lemma replace_gz_inside x y :
  no_char "." x = true ->
  replace (x ++ ".gz" ++ y) ".gz" "" = (x ++ replace y ".gz" "")%string.
Proof.
  unfold replace. induction x as [|c x IH]; intros H.
  - reflexivity.
  - simpl in H. apply andb_prop in H. destruct H as [Hc Hx].
    apply negb_true_iff in Hc.
    cbn [append replace_from startswith].
    rewrite Ascii.eqb_sym, Hc. cbn [andb]. f_equal. apply IH, Hx.
Qed.

(** C9: the token is what [.replace(".gz", "")] makes of the part of the
    path after its last slash, and the replacement removes an occurrence
    of [.gz] wherever it stands, not only at the end; a line that starts
    with the token is skipped even when [json.loads] reads an object from
    it, and the data of the fallback are those of the file without that
    line. *)
Theorem base_name_token env file_path :
  exists dir seg,
    file_path = (dir ++ seg)%string
    /\ no_char "/" seg = true
    /\ (dir = "" \/ exists d, dir = (d ++ "/")%string)
    /\ base_name file_path = Ok (replace seg ".gz" "")
    /\ (forall x y, no_char "." x = true ->
                    replace (x ++ ".gz" ++ y) ".gz" "" = (x ++ replace y ".gz" "")%string)
    /\ (forall line v data,
           startswith line (replace seg ".gz" "") = true ->
           json_loads env line = Ok v ->
           parse_line env (replace seg ".gz" "") data line = Ok data)
    /\ (forall pre line post,
           startswith line (replace seg ".gz" "") = true ->
           fallback_data (with_lines env (pre ++ line :: post)) file_path
           = fallback_data (with_lines env (pre ++ post)) file_path).
Proof.
  destruct (split_last "/" file_path) as (w & ws & dir & Hs & Hd & Hn & He & Hne).
  exists dir, (last (w :: ws) "").
  assert (Hb : base_name file_path = Ok (replace (last (w :: ws) "") ".gz" "")).
  { rewrite base_name_eq, Hs. reflexivity. }
  split; [exact Hd | ]. split; [exact Hn | ].
  split; [destruct ws as [|w' ws];
          [left; apply He; reflexivity | right; apply Hne; discriminate] | ].
  split; [exact Hb | ]. split; [exact replace_gz_inside | ]. split.
  - intros line v data Hl _. apply parse_line_header, Hl.
  - intros pre line post Hl. apply (fallback_data_drops _ _ _ _ _ _ Hb Hl).
Qed.

Example base_name_users : base_name users_path = Ok "users.json".
Proof. reflexivity. Qed.

Example base_name_inner_gz : base_name "exports/my.gzip.json.gz" = Ok "myip.json".
Proof. reflexivity. Qed.

(** A file called [{.gz]: its token is a brace, and every object line is
    lost. *)
Lemma base_name_token_witness :
  base_name brace_path = Ok "{"
  /\ sample_loads (user_line "abc123") = Ok (user_record "abc123")
  /\ parse_line sample_env "{" [] (user_line "abc123") = Ok []
  /\ fallback_data (with_lines sample_env [user_line "abc123"; user_line "def456"]) brace_path
     = fallback_data (with_lines sample_env [user_line "def456"]) brace_path.
Proof.
  destruct (base_name_token sample_env brace_path)
    as (dir & seg & _ & _ & _ & Hb & _ & Hl & Hf).
  injection Hb as Hb. rewrite <- Hb in Hl, Hf.
  split; [reflexivity | ]. split; [reflexivity | ]. split.
  - apply (Hl (user_line "abc123") (user_record "abc123") []); reflexivity.
  - apply (Hf [] (user_line "abc123") [user_line "def456"]). reflexivity.
Defined.

(** ** A single record *)

Lemma abc_load_passes_on env file_path df :
  read_json env file_path = Ok df -> Abc.load_gzipped_json env file_path = Ok df.
Proof. intros H. unfold Abc.load_gzipped_json. rewrite H. reflexivity. Qed.

Lemma gzip_load_wraps env file_path s :
  read_json env file_path = Ok (Ser s) ->
  ImportGzip.load_gzipped_json env file_path = Ok (Frame (DataFrame_of_row s)).
Proof. intros H. unfold ImportGzip.load_gzipped_json. rewrite H. reflexivity. Qed.

Lemma wrap_Series_frame df : exists d, ImportGzip.wrap_Series df = Frame d.
Proof. destruct df as [d|s]; eexists; reflexivity. Qed.

(** The loader of [import gzip.py] returns nothing but frames. *)
Lemma gzip_load_frame env file_path r :
  ImportGzip.load_gzipped_json env file_path = Ok r -> exists d, r = Frame d.
Proof.
  unfold ImportGzip.load_gzipped_json.
  destruct (read_json env file_path) as [df|e].
  - intros H. injection H as <-. apply wrap_Series_frame.
  - destruct (is_ValueError e); [ | discriminate].
    destruct (fallback_data env file_path) as [data|e1]; cbn [bind]; [ | discriminate].
    destruct (pd_DataFrame env data) as [d|e2]; cbn [bind]; [ | discriminate].
    intros H. injection H as <-. exists d. reflexivity.
Qed.


(** ** Floats: whole numbers of seconds *)












(** ** Dates *)







Lemma convert_column_present f df col vs :
  column_values (LStr col) (df_data df) = Some vs ->
  convert_column f df col
  = (vs' <- mapM f vs ;;
     Ok (frame_setitem df col (mkSeries (Some (LStr col)) (df_index df) vs'))).
Proof.
  intros H. unfold convert_column, frame_getitem, Series_apply.
  rewrite (proj2 (has_column_values df (LStr col)) (ex_intro _ vs H)), H.
  cbn [bind s_values s_name s_index].
  destruct (mapM f vs) as [vs'|e]; reflexivity.
Qed.






(* ================================================================== *)
(** * Further properties *)

(** ** Converted values are left alone *)

Lemma convert_cpg_fixed v w : Abc.convert_cpg v = Ok w -> Abc.convert_cpg w = Ok w.
Proof.
  intros H.
  destruct (isinstance_dict v && contains "$id" v && contains "$ref" v) eqn:G.
  - destruct v; try discriminate G. simpl in G.
    destruct (dict_lookup "$id" items) as [id|] eqn:Hid; [ | discriminate G].
    destruct (dict_lookup "$ref" items) as [ref|] eqn:Href; [ | discriminate G].
    destruct (isinstance_dict id && contains "$oid" id) eqn:G'.
    + destruct id; try discriminate G'. simpl in G'.
      destruct (dict_lookup "$oid" items0) as [S|] eqn:HS; [ | discriminate G'].
      rewrite (convert_cpg_oid items _ ref Hid Href items0 eq_refl S HS) in H.
      injection H as <-. reflexivity.
    + rewrite (convert_cpg_plain items id ref Hid Href G') in H.
      injection H as <-. reflexivity.
  - rewrite (convert_cpg_other v G) in H. injection H as <-.
    apply convert_cpg_other, G.
Qed.

Lemma convert_date_fixed env v w : convert_date env v = Ok w -> convert_date env w = Ok w.
Proof.
  intros H. destruct (isinstance_dict v && contains "$date" v) eqn:G.
  - destruct v; try discriminate G. simpl in G.
    destruct (dict_lookup "$date" items) as [d|] eqn:Hd; [ | discriminate G].
    rewrite (convert_date_lookup env items d Hd) in H.
    destruct (truediv d (VInt 1000)) as [t|e]; [ | discriminate H]. cbn [bind] in H.
    destruct (fromtimestamp (utcoffset env) t) as [dt|e]; [ | discriminate H].
    injection H as <-. reflexivity.
  - rewrite (convert_date_other env v G) in H. injection H as <-.
    apply convert_date_other, G.
Qed.

Lemma convert_oid_fixed v w :
  plain_oid v = true -> convert_oid v = Ok w -> convert_oid w = Ok w.
Proof.
  intros P H. destruct (isinstance_dict v && contains "$oid" v) eqn:G.
  - destruct v; try discriminate G. simpl in G, P.
    destruct (dict_lookup "$oid" items) as [x|] eqn:Hx; [ | discriminate G].
    rewrite (convert_oid_lookup items x Hx) in H. injection H as <-.
    apply convert_oid_other, negb_true_iff, P.
  - rewrite (convert_oid_other v G) in H. injection H as <-.
    apply convert_oid_other, G.
Qed.

(** X1: what a conversion returns it returns unchanged when applied
    again: always for [convert_cpg] and [convert_date], and for
    [convert_oid] when the payload under ["$oid"] is not again a dict with
    that key. *)
Theorem conversions_settle :
  (forall v w, Abc.convert_cpg v = Ok w -> Abc.convert_cpg w = Ok w) /\
  (forall env v w, convert_date env v = Ok w -> convert_date env w = Ok w) /\
  (forall v w, plain_oid v = true -> convert_oid v = Ok w -> convert_oid w = Ok w).
Proof.
  split; [exact convert_cpg_fixed | ]. split; [exact convert_date_fixed | ].
  exact convert_oid_fixed.
Qed.

Lemma conversions_settle_witness :
  Abc.convert_cpg (cpg_pair (VStr "601ac114be37ce2ead437550") (VStr "Cogs"))
  = Ok (cpg_pair (VStr "601ac114be37ce2ead437550") (VStr "Cogs"))
  /\ convert_date sample_env (VDatetime (mkDatetime 2021 1 3 15 25 31 0))
     = Ok (VDatetime (mkDatetime 2021 1 3 15 25 31 0))
  /\ convert_oid (VStr "abc123") = Ok (VStr "abc123").
Proof.
  destruct conversions_settle as (Hc & Hd & Ho). split; [ | split].
  - apply (Hc (CrossRef (ObjectIdRef "601ac114be37ce2ead437550") "Cogs")). reflexivity.
  - apply (Hd sample_env (EncodedDate 1609687531000)). reflexivity.
  - apply (Ho (ObjectIdRef "abc123")); reflexivity.
Defined.

(** ** Columns that are already converted *)

Lemma mapM_fixed {A} (f : A -> result A) vs : forall ws,
  (forall v, In v vs -> forall w, f v = Ok w -> f w = Ok w) ->
  mapM f vs = Ok ws -> mapM f ws = Ok ws.
Proof.
  induction vs as [|v vs IH]; simpl; intros ws H E.
  - injection E as <-. reflexivity.
  - destruct (f v) as [w|e] eqn:Ev; [ | discriminate E]. cbn [bind] in E.
    destruct (mapM f vs) as [ws'|e] eqn:Em; [ | discriminate E]. cbn [bind] in E.
    injection E as <-. simpl.
    rewrite (H v (or_introl eq_refl) w Ev). cbn [bind].
    rewrite (IH ws' (fun x Hx => H x (or_intror Hx)) eq_refl). reflexivity.
Qed.

Lemma mapM_ok_inv {A B} (f : A -> result B) vs : forall ws,
  mapM f vs = Ok ws -> forall v, In v vs -> returns (f v).
Proof.
  induction vs as [|v vs IH]; simpl; intros ws E x Hx; [destruct Hx | ].
  destruct (f v) as [w|e] eqn:Ev; [ | discriminate E]. cbn [bind] in E.
  destruct (mapM f vs) as [ws'|e] eqn:Em; [ | discriminate E].
  destruct Hx as [<-|Hx].
  - exists w. exact Ev.
  - apply (IH ws' eq_refl x Hx).
Qed.

Lemma column_values_In col data vs :
  column_values col data = Some vs -> In col (map fst data).
Proof.
  induction data as [|[l ws] data IH]; simpl; [discriminate | ].
  destruct (label_eqb l col) eqn:E.
  - apply label_eqb_eq in E. intros _. left. exact E.
  - intros H. right. apply IH, H.
Qed.

Lemma column_values_absent col data :
  ~ In col (map fst data) -> column_values col data = None.
Proof.
  intros N. destruct (column_values col data) as [vs|] eqn:E; [ | reflexivity].
  exfalso. apply N. eapply column_values_In, E.
Qed.

Lemma has_column_false df col :
  has_column df col = false <-> column_values col (df_data df) = None.
Proof.
  pose proof (has_column_values df col) as H.
  destruct (has_column df col), (column_values col (df_data df)) as [vs|].
  - split; discriminate.
  - destruct (proj1 H eq_refl) as [vs Hvs]. discriminate Hvs.
  - assert (false = true) by (apply H; eauto). discriminate.
  - split; reflexivity.
Qed.

Lemma set_column_absent col new data :
  ~ In col (map fst data) -> map (set_column col new) data = data.
Proof.
  induction data as [|[l ws] data IH]; simpl; intros N; [reflexivity | ].
  unfold set_column at 1. simpl. rewrite label_eqb_neq by (intros ->; apply N; auto).
  rewrite IH by (intros Hin; apply N; auto). reflexivity.
Qed.

Lemma set_column_same col data vs :
  NoDup (map fst data) -> column_values col data = Some vs ->
  map (set_column col vs) data = data.
Proof.
  induction data as [|[l ws] data IH]; simpl; intros ND H; [discriminate | ].
  inversion ND as [|? ? Hl ND']; subst. unfold set_column at 1. simpl.
  destruct (label_eqb l col) eqn:E.
  - apply label_eqb_eq in E. subst l. injection H as <-.
    rewrite set_column_absent by exact Hl. reflexivity.
  - rewrite (IH ND' H). reflexivity.
Qed.

Lemma convert_column_fixed f df col :
  NoDup (column_labels df) -> fixed_column f col df -> convert_column f df col = Ok df.
Proof.
  intros ND F. destruct (column_values (LStr col) (df_data df)) as [vs|] eqn:E.
  - rewrite (convert_column_present f df col vs E), (F vs E). cbn [bind].
    unfold frame_setitem.
    rewrite (proj2 (has_column_values df (LStr col)) (ex_intro _ vs E)).
    cbn [s_values]. rewrite (set_column_same _ _ _ ND E). destruct df; reflexivity.
  - unfold convert_column. rewrite (proj2 (has_column_false df (LStr col)) E).
    reflexivity.
Qed.

Lemma convert_column_result f df col vs df' :
  column_values (LStr col) (df_data df) = Some vs ->
  convert_column f df col = Ok df' ->
  exists ws, mapM f vs = Ok ws
             /\ column_values (LStr col) (df_data df') = Some ws.
Proof.
  intros E H. rewrite (convert_column_present f df col vs E) in H.
  destruct (mapM f vs) as [ws|e]; [ | discriminate H]. cbn [bind] in H.
  injection H as <-. exists ws. split; [reflexivity | ].
  unfold frame_setitem.
  rewrite (proj2 (has_column_values df (LStr col)) (ex_intro _ vs E)).
  cbn [df_data s_values]. eapply setitem_same, E.
Qed.

Lemma convert_column_settles f df col df' :
  (forall vs, column_values (LStr col) (df_data df) = Some vs ->
              forall v, In v vs -> forall w, f v = Ok w -> f w = Ok w) ->
  convert_column f df col = Ok df' -> fixed_column f col df'.
Proof.
  intros S H ws' E'.
  destruct (column_values (LStr col) (df_data df)) as [vs|] eqn:E.
  - destruct (convert_column_result f df col vs df' E H) as (ws & Hm & Hc).
    rewrite Hc in E'. injection E' as <-.
    apply (mapM_fixed f vs ws (S vs eq_refl) Hm).
  - unfold convert_column in H. rewrite (proj2 (has_column_false df (LStr col)) E) in H.
    injection H as <-. rewrite E in E'. discriminate E'.
Qed.

Lemma fixed_column_unchanged f col cols df df' :
  unchanged_outside cols df df' -> ~ In (LStr col) cols ->
  fixed_column f col df -> fixed_column f col df'.
Proof.
  intros (_ & _ & _ & V) N F vs E. apply F. rewrite <- (V _ N). exact E.
Qed.

Lemma not_in_LStr c cols : ~ In c cols -> ~ In (LStr c) (map LStr cols).
Proof. intros N H. apply N, LStr_in, H. Qed.

(** After a loop of conversions every column of the loop is converted. *)
Lemma for_each_settles f cols : forall df df',
  NoDup cols ->
  (forall c vs, In c cols -> column_values (LStr c) (df_data df) = Some vs ->
                forall v, In v vs -> forall w, f v = Ok w -> f w = Ok w) ->
  for_each cols (convert_column f) df = Ok df' ->
  forall c, In c cols -> fixed_column f c df'.
Proof.
  induction cols as [|c0 cols IH]; simpl; intros df df' ND S H c Hc; [destruct Hc | ].
  inversion ND as [|? ? Hc0 ND']; subst.
  destruct (convert_column f df c0) as [df1|e] eqn:H1; [ | discriminate H].
  cbn [bind] in H.
  pose proof (convert_column_frame _ _ _ _ H1) as U1.
  destruct Hc as [<-|Hc].
  - apply (fixed_column_unchanged f c0 (map LStr cols) df1 df').
    + apply (for_each_frame f cols df1 df' H).
    + apply not_in_LStr, Hc0.
    + apply (convert_column_settles f df c0 df1); [ | exact H1].
      intros vs. apply S. left. reflexivity.
  - apply (IH df1 df' ND'); [ | exact H | exact Hc].
    intros c' vs Hc' E. apply (S c' vs (or_intror Hc')).
    destruct U1 as (_ & _ & _ & V). rewrite <- V; [exact E | ].
    intros [E0|[]]. injection E0 as ->. contradiction.
Qed.

Lemma for_each_fixed f cols df :
  NoDup (column_labels df) ->
  (forall c, In c cols -> fixed_column f c df) ->
  for_each cols (convert_column f) df = Ok df.
Proof.
  intros ND. induction cols as [|c cols IH]; simpl; intros F; [reflexivity | ].
  rewrite (convert_column_fixed f df c ND (F c (or_introl eq_refl))). cbn [bind].
  apply IH. intros c' Hc'. apply F. right. exact Hc'.
Qed.

(** The cells a loop of conversions was run on were all accepted. *)
Lemma for_each_ok_cells f cols : forall df df',
  NoDup cols ->
  for_each cols (convert_column f) df = Ok df' ->
  forall c vs v, In c cols -> column_values (LStr c) (df_data df) = Some vs ->
                 In v vs -> returns (f v).
Proof.
  induction cols as [|c0 cols IH]; simpl; intros df df' ND H c vs v Hc E Hv; [destruct Hc | ].
  inversion ND as [|? ? Hc0 ND']; subst.
  destruct (convert_column f df c0) as [df1|e] eqn:H1; [ | discriminate H].
  cbn [bind] in H. destruct Hc as [<-|Hc].
  - destruct (convert_column_result f df c0 vs df1 E H1) as (ws & Hm & _).
    apply (mapM_ok_inv f vs ws Hm v Hv).
  - apply (IH df1 df' ND' H c vs v Hc); [ | exact Hv].
    destruct (convert_column_frame _ _ _ _ H1) as (_ & _ & _ & V).
    rewrite V; [exact E | ]. intros [E0|[]]. injection E0 as ->. contradiction.
Qed.

Lemma for_each_absent f cols df :
  (forall c, In c cols -> has_column df (LStr c) = false) ->
  for_each cols (convert_column f) df = Ok df.
Proof.
  induction cols as [|c cols IH]; simpl; intros H; [reflexivity | ].
  unfold convert_column at 1. rewrite (H c (or_introl eq_refl)). cbn [bind].
  apply IH. intros c' Hc'. apply H. right. exact Hc'.
Qed.

Lemma oid_columns_NoDup : NoDup oid_columns.
Proof. unfold oid_columns. repeat constructor; simpl; intuition discriminate. Qed.

Lemma oid_columns_not_date col :
  In col oid_columns -> ~ In (LStr col) (map LStr date_columns).
Proof.
  intros Ho Hd. apply LStr_in in Hd. apply (date_columns_not_oid col Hd).
  apply in_map, Ho.
Qed.

Lemma oid_columns_not_cpg col : In col oid_columns -> ~ In (LStr col) [LStr "cpg"].
Proof.
  intros Ho [E|[]]. injection E as <-. simpl in Ho.
  repeat (destruct Ho as [Ho|Ho]; [discriminate Ho | ]). exact Ho.
Qed.

Lemma date_columns_not_cpg col : In col date_columns -> ~ In (LStr col) [LStr "cpg"].
Proof.
  intros Hd [E|[]]. injection E as <-. simpl in Hd.
  repeat (destruct Hd as [Hd|Hd]; [discriminate Hd | ]). exact Hd.
Qed.

Lemma unchanged_outside_has_column cols df df' col :
  unchanged_outside cols df df' -> has_column df' col = has_column df col.
Proof. intros (_ & L & _). unfold has_column. rewrite L. reflexivity. Qed.

(** ** [apply_conversions] run twice *)

Section Twice.

Variable env : Env.
Variable df : DataFrame.
Hypothesis Hlabels : NoDup (column_labels df).
Hypothesis Hplain : oid_cells_plain df.

Lemma oid_cells_settle c vs :
  In c oid_columns -> column_values (LStr c) (df_data df) = Some vs ->
  forall v, In v vs -> forall w, convert_oid v = Ok w -> convert_oid w = Ok w.
Proof.
  intros Hc E v Hv w. apply convert_oid_fixed.
  apply (proj1 (forallb_forall plain_oid vs) (Hplain c vs Hc E) v Hv).
Qed.

Lemma gzip_apply_conversions_twice r :
  ImportGzip.apply_conversions env (Frame df) = Ok r ->
  ImportGzip.apply_conversions env r = Ok r.
Proof.
  unfold ImportGzip.apply_conversions at 1.
  destruct (for_each oid_columns (convert_column convert_oid) df) as [df1|e] eqn:H1;
    [ | discriminate]. cbn [bind].
  destruct (for_each date_columns (convert_column (convert_date env)) df1)
    as [df2|e] eqn:H2; [ | discriminate]. cbn [bind].
  intros H. injection H as <-.
  pose proof (for_each_frame _ _ _ _ H1) as U1.
  pose proof (for_each_frame _ _ _ _ H2) as U2.
  assert (ND2 : NoDup (column_labels df2)).
  { destruct U1 as (_ & L1 & _), U2 as (_ & L2 & _). rewrite L2, L1. exact Hlabels. }
  assert (Fo : forall c, In c oid_columns -> fixed_column convert_oid c df2).
  { intros c Hc.
    apply (fixed_column_unchanged convert_oid c _ df1 df2 U2 (oid_columns_not_date c Hc)).
    apply (for_each_settles convert_oid oid_columns df df1 oid_columns_NoDup
             oid_cells_settle H1 c Hc). }
  assert (Fd : forall c, In c date_columns -> fixed_column (convert_date env) c df2).
  { apply (for_each_settles (convert_date env) date_columns df1 df2 date_columns_NoDup);
      [ | exact H2].
    intros c vs _ _ v _ w. apply convert_date_fixed. }
  unfold ImportGzip.apply_conversions.
  rewrite (for_each_fixed convert_oid oid_columns df2 ND2 Fo). cbn [bind].
  rewrite (for_each_fixed (convert_date env) date_columns df2 ND2 Fd). reflexivity.
Qed.

Lemma abc_apply_conversions_twice r :
  Abc.apply_conversions env (Frame df) = Ok r -> Abc.apply_conversions env r = Ok r.
Proof.
  unfold Abc.apply_conversions at 1.
  destruct (for_each oid_columns (convert_column convert_oid) df) as [df1|e] eqn:H1;
    [ | discriminate]. cbn [bind].
  destruct (for_each date_columns (convert_column (convert_date env)) df1)
    as [df2|e] eqn:H2; [ | discriminate]. cbn [bind].
  destruct (convert_column Abc.convert_cpg df2 "cpg") as [df3|e] eqn:H3;
    [ | discriminate]. cbn [bind].
  intros H. injection H as <-.
  pose proof (for_each_frame _ _ _ _ H1) as U1.
  pose proof (for_each_frame _ _ _ _ H2) as U2.
  pose proof (convert_column_frame _ _ _ _ H3) as U3.
  assert (ND3 : NoDup (column_labels df3)).
  { destruct U1 as (_ & L1 & _), U2 as (_ & L2 & _), U3 as (_ & L3 & _).
    rewrite L3, L2, L1. exact Hlabels. }
  assert (Fo : forall c, In c oid_columns -> fixed_column convert_oid c df3).
  { intros c Hc.
    apply (fixed_column_unchanged convert_oid c _ df2 df3 U3 (oid_columns_not_cpg c Hc)).
    apply (fixed_column_unchanged convert_oid c _ df1 df2 U2 (oid_columns_not_date c Hc)).
    apply (for_each_settles convert_oid oid_columns df df1 oid_columns_NoDup
             oid_cells_settle H1 c Hc). }
  assert (Fd : forall c, In c date_columns -> fixed_column (convert_date env) c df3).
  { intros c Hc.
    apply (fixed_column_unchanged _ c _ df2 df3 U3 (date_columns_not_cpg c Hc)).
    apply (for_each_settles (convert_date env) date_columns df1 df2 date_columns_NoDup);
      [ | exact H2 | exact Hc].
    intros c' vs _ _ v _ w. apply convert_date_fixed. }
  assert (Fc : fixed_column Abc.convert_cpg "cpg" df3).
  { apply (convert_column_settles Abc.convert_cpg df2 "cpg" df3); [ | exact H3].
    intros vs _ v _ w. apply convert_cpg_fixed. }
  unfold Abc.apply_conversions.
  rewrite (for_each_fixed convert_oid oid_columns df3 ND3 Fo). cbn [bind].
  rewrite (for_each_fixed (convert_date env) date_columns df3 ND3 Fd). cbn [bind].
  rewrite (convert_column_fixed Abc.convert_cpg df3 "cpg" ND3 Fc). reflexivity.
Qed.

End Twice.

(** X2: on a table whose column labels are distinct and whose identifier
    cells are not doubly wrapped, what [apply_conversions] returns it
    returns unchanged when it is applied again, in either script. *)
Theorem apply_conversions_twice env df :
  NoDup (column_labels df) -> oid_cells_plain df ->
  (forall r, Abc.apply_conversions env (Frame df) = Ok r ->
             Abc.apply_conversions env r = Ok r) /\
  (forall r, ImportGzip.apply_conversions env (Frame df) = Ok r ->
             ImportGzip.apply_conversions env r = Ok r).
Proof.
  intros ND P. split.
  - apply abc_apply_conversions_twice; assumption.
  - apply gzip_apply_conversions_twice; assumption.
Qed.

Lemma sample_receipts_plain : oid_cells_plain sample_receipts.
Proof.
  intros col vs Hcol Hvs. simpl in Hcol.
  repeat (destruct Hcol as [Hcol|Hcol];
          [ subst col; vm_compute in Hvs; try discriminate Hvs | ]);
    [ | destruct Hcol ].
  injection Hvs as <-. reflexivity.
Defined.

Lemma sample_receipts_labels : NoDup (column_labels sample_receipts).
Proof.
  change (column_labels sample_receipts)
    with [LStr "_id"; LStr "createdDate"; LStr "rewardsReceiptItemList"; LStr "totalSpent"].
  repeat constructor; simpl; intuition discriminate.
Defined.

Lemma apply_conversions_twice_witness :
  exists r, Abc.apply_conversions sample_env (Frame sample_receipts) = Ok r
            /\ Abc.apply_conversions sample_env r = Ok r.
Proof.
  destruct (Abc.apply_conversions sample_env (Frame sample_receipts)) as [r|e] eqn:E.
  - exists r. split; [reflexivity | ].
    apply (proj1 (apply_conversions_twice sample_env sample_receipts
                    sample_receipts_labels sample_receipts_plain) r E).
  - exfalso. vm_compute in E. discriminate E.
Defined.

(** ** When [apply_conversions] returns *)

Lemma dates_convertible_of_loop env df df1 df2 :
  unchanged_outside (map LStr oid_columns) df df1 ->
  for_each date_columns (convert_column (convert_date env)) df1 = Ok df2 ->
  dates_convertible env df.
Proof.
  intros (_ & _ & _ & V) H col vs v Hcol E Hv.
  apply (for_each_ok_cells (convert_date env) date_columns df1 df2
           date_columns_NoDup H col vs v Hcol); [ | exact Hv].
  rewrite V; [exact E | ]. apply date_columns_not_oid, Hcol.
Qed.

Lemma abc_returns_convertible env df :
  returns (Abc.apply_conversions env (Frame df)) -> dates_convertible env df.
Proof.
  intros [r H]. unfold Abc.apply_conversions in H.
  destruct (for_each oid_columns (convert_column convert_oid) df) as [df1|e] eqn:H1;
    [ | discriminate H]. cbn [bind] in H.
  destruct (for_each date_columns (convert_column (convert_date env)) df1)
    as [df2|e] eqn:H2; [ | discriminate H].
  apply (dates_convertible_of_loop env df df1 df2 (for_each_frame _ _ _ _ H1) H2).
Qed.

Lemma gzip_returns_convertible env df :
  returns (ImportGzip.apply_conversions env (Frame df)) -> dates_convertible env df.
Proof.
  intros [r H]. unfold ImportGzip.apply_conversions in H.
  destruct (for_each oid_columns (convert_column convert_oid) df) as [df1|e] eqn:H1;
    [ | discriminate H]. cbn [bind] in H.
  destruct (for_each date_columns (convert_column (convert_date env)) df1)
    as [df2|e] eqn:H2; [ | discriminate H].
  apply (dates_convertible_of_loop env df df1 df2 (for_each_frame _ _ _ _ H1) H2).
Qed.

(** X3: [apply_conversions] returns a table exactly when [convert_date]
    accepts every cell of the date columns the table has; one cell that
    it rejects makes the whole call raise, in either script. *)
Theorem apply_conversions_returns_iff env df :
  (returns (Abc.apply_conversions env (Frame df)) <-> dates_convertible env df) /\
  (returns (ImportGzip.apply_conversions env (Frame df)) <-> dates_convertible env df).
Proof.
  split; split.
  - apply abc_returns_convertible.
  - intros H. apply (apply_conversions_return env df H).
  - apply gzip_returns_convertible.
  - intros H. apply (apply_conversions_return env df H).
Qed.

Lemma apply_conversions_returns_iff_witness :
  returns (Abc.apply_conversions sample_env (Frame sample_receipts))
  /\ dates_convertible sample_env sample_users.
Proof.
  split.
  - apply (proj2 (proj1 (apply_conversions_returns_iff sample_env sample_receipts))).
    exact sample_receipts_convertible.
  - apply (proj1 (proj2 (apply_conversions_returns_iff sample_env sample_users))).
    eexists. vm_compute. reflexivity.
Defined.

(** ** Tables without the known columns *)

Lemma abc_apply_conversions_absent env df :
  (forall l, In l converted_columns_abc -> has_column df l = false) ->
  Abc.apply_conversions env (Frame df) = Ok (Frame df).
Proof.
  intros H. unfold Abc.apply_conversions.
  assert (Hin : forall c, In c (oid_columns ++ date_columns ++ ["cpg"]) ->
                          has_column df (LStr c) = false).
  { intros c Hc. apply H. unfold converted_columns_abc. apply in_map, Hc. }
  rewrite for_each_absent by (intros c Hc; apply Hin, in_or_app; auto).
  cbn [bind].
  rewrite for_each_absent
    by (intros c Hc; apply Hin, in_or_app; right; apply in_or_app; auto).
  cbn [bind]. unfold convert_column.
  rewrite Hin by (apply in_or_app; right; apply in_or_app; right; left; reflexivity).
  reflexivity.
Qed.

Lemma gzip_apply_conversions_absent env df :
  (forall l, In l converted_columns_gzip -> has_column df l = false) ->
  ImportGzip.apply_conversions env (Frame df) = Ok (Frame df).
Proof.
  intros H. unfold ImportGzip.apply_conversions.
  assert (Hin : forall c, In c (oid_columns ++ date_columns) ->
                          has_column df (LStr c) = false).
  { intros c Hc. apply H. unfold converted_columns_gzip. apply in_map, Hc. }
  rewrite for_each_absent by (intros c Hc; apply Hin, in_or_app; auto).
  cbn [bind].
  rewrite for_each_absent by (intros c Hc; apply Hin, in_or_app; auto).
  reflexivity.
Qed.

(** X4: a table that has none of the known columns is returned as it is,
    whatever its cells hold. *)
Theorem apply_conversions_without_known_columns env df :
  ((forall l, In l converted_columns_abc -> has_column df l = false) ->
   Abc.apply_conversions env (Frame df) = Ok (Frame df)) /\
  ((forall l, In l converted_columns_gzip -> has_column df l = false) ->
   ImportGzip.apply_conversions env (Frame df) = Ok (Frame df)).
Proof.
  split; [apply abc_apply_conversions_absent | apply gzip_apply_conversions_absent].
Qed.

Lemma apply_conversions_without_known_columns_witness :
  Abc.apply_conversions sample_env
    (Frame (mkDataFrame [LInt 0] [(LStr "name", [ObjectIdRef "abc123"])]))
  = Ok (Frame (mkDataFrame [LInt 0] [(LStr "name", [ObjectIdRef "abc123"])])).
Proof.
  apply (proj1 (apply_conversions_without_known_columns sample_env
                  (mkDataFrame [LInt 0] [(LStr "name", [ObjectIdRef "abc123"])]))).
  intros l Hl. simpl in Hl.
  repeat (destruct Hl as [<-|Hl]; [reflexivity | ]). destruct Hl.
Defined.

(** X5: the two scripts convert alike every table that has no column
    [cpg]. *)
Theorem apply_conversions_agree_without_cpg env df :
  has_column df (LStr "cpg") = false ->
  Abc.apply_conversions env (Frame df) = ImportGzip.apply_conversions env (Frame df).
Proof.
  intros H. unfold Abc.apply_conversions, ImportGzip.apply_conversions.
  destruct (for_each oid_columns (convert_column convert_oid) df) as [df1|e] eqn:H1;
    [ | reflexivity]. cbn [bind].
  destruct (for_each date_columns (convert_column (convert_date env)) df1)
    as [df2|e] eqn:H2; [ | reflexivity]. cbn [bind].
  unfold convert_column.
  rewrite (unchanged_outside_has_column _ df1 df2 _ (for_each_frame _ _ _ _ H2)),
          (unchanged_outside_has_column _ df df1 _ (for_each_frame _ _ _ _ H1)), H.
  reflexivity.
Qed.

Lemma apply_conversions_agree_without_cpg_witness :
  Abc.apply_conversions sample_env (Frame sample_receipts)
  = ImportGzip.apply_conversions sample_env (Frame sample_receipts).
Proof.
  apply (apply_conversions_agree_without_cpg sample_env sample_receipts). reflexivity.
Defined.

(** ** The two loaders side by side *)

(** X6: the loaders of the two scripts return or raise the same, except
    when [pd.read_json] returns a series. *)
Theorem loaders_agree env file_path :
  (forall s, read_json env file_path <> Ok (Ser s)) ->
  Abc.load_gzipped_json env file_path = ImportGzip.load_gzipped_json env file_path.
Proof.
  intros H. unfold Abc.load_gzipped_json, ImportGzip.load_gzipped_json.
  destruct (read_json env file_path) as [[d|s]|e].
  - reflexivity.
  - destruct (H s eq_refl).
  - destruct (is_ValueError e); [ | reflexivity].
    destruct (fallback_data env file_path) as [data|e1]; cbn [bind]; [ | reflexivity].
    destruct (pd_DataFrame env data) as [d|e2]; reflexivity.
Qed.

Lemma loaders_agree_witness :
  Abc.load_gzipped_json sample_env broken_path
  = ImportGzip.load_gzipped_json sample_env broken_path.
Proof.
  apply (loaders_agree sample_env broken_path). intros s. vm_compute. discriminate.
Defined.

(** X7: whatever the loader of [import gzip.py] returns is a frame, never
    a series. *)
Theorem gzip_load_returns_frames env file_path r :
  ImportGzip.load_gzipped_json env file_path = Ok r -> exists d, r = Frame d.
Proof. apply gzip_load_frame. Qed.

Lemma gzip_load_returns_frames_witness :
  exists d, Frame (mkDataFrame [LInt 0] [(LStr "_id", [ObjectIdRef "abc123"])]) = Frame d.
Proof.
  apply (gzip_load_returns_frames sample_env single_path). reflexivity.
Defined.

(** ** What the loop over the lines lets through *)

(** X8: an exception of [json.loads] that is not a [JSONDecodeError] is
    not caught: the loader of either script raises it, whatever the lines
    before and after. *)
Theorem json_error_propagates env file_path b pre line post e :
  falls_back env file_path ->
  base_name file_path = Ok b ->
  gzip_open env file_path = Ok (pre ++ line :: post) ->
  (forall l e', In l pre -> json_loads env l = Raise e' -> e' = JSONDecodeError) ->
  kept b line = true ->
  json_loads env line = Raise e ->
  e <> JSONDecodeError ->
  Abc.load_gzipped_json env file_path = Raise e
  /\ ImportGzip.load_gzipped_json env file_path = Raise e.
Proof.
  intros (e0 & Hr & Hv) Hb Hg Hpre Hk Hj Hne.
  rewrite base_name_eq in Hb. injection Hb as Hb.
  assert (Hd : fallback_data env file_path = Raise e).
  { rewrite (fallback_data_lines env file_path _ Hg), Hb, for_each_app.
    rewrite (parse_lines env b pre [] Hpre). cbn [bind app for_each].
    rewrite (parse_line_kept env b _ line Hk), Hj.
    destruct e; try reflexivity. contradiction. }
  unfold Abc.load_gzipped_json, ImportGzip.load_gzipped_json.
  rewrite Hr, Hv, Hd. split; reflexivity.
Qed.

Lemma json_error_propagates_witness :
  Abc.load_gzipped_json limit_env users_path = Raise ValueError
  /\ ImportGzip.load_gzipped_json limit_env users_path = Raise ValueError.
Proof.
  apply (json_error_propagates limit_env users_path "users.json"
           [user_line "abc123"] long_line [user_line "def456"] ValueError).
  - exists ValueError. split; reflexivity.
  - reflexivity.
  - reflexivity.
  - intros l e' [<-|[]]. vm_compute. discriminate.
  - vm_compute. reflexivity.
  - vm_compute. reflexivity.
  - discriminate.
Defined.

Lemma parse_nothing env b lines : forall data,
  (forall l, In l lines -> kept b l = false \/ json_loads env l = Raise JSONDecodeError) ->
  for_each lines (parse_line env b) data = Ok data.
Proof.
  induction lines as [|line lines IH]; simpl; intros data H; [reflexivity | ].
  assert (E : parse_line env b data line = Ok data).
  { destruct (kept b line) eqn:K.
    - rewrite (parse_line_kept env b data line K).
      destruct (H line (or_introl eq_refl)) as [K'|J]; [congruence | ].
      rewrite J. reflexivity.
    - apply parse_line_skipped, K. }
  rewrite E. cbn [bind]. apply IH. intros l Hl. apply H. right. exact Hl.
Qed.

(** X9: a file that holds nothing but blank lines, lines that start with
    the token and lines that are not JSON, an empty file among them, is
    loaded by the fallback as the empty table: no row, no column, no
    error. *)
Theorem nothing_parsed_empty_table env file_path b lines :
  falls_back env file_path ->
  base_name file_path = Ok b ->
  gzip_open env file_path = Ok lines ->
  (forall l, In l lines -> kept b l = false \/ json_loads env l = Raise JSONDecodeError) ->
  Abc.load_gzipped_json env file_path = Ok (Frame DataFrame_empty)
  /\ ImportGzip.load_gzipped_json env file_path = Ok (Frame DataFrame_empty).
Proof.
  intros (e0 & Hr & Hv) Hb Hg H.
  rewrite base_name_eq in Hb. injection Hb as Hb.
  assert (Hd : fallback_data env file_path = Ok []).
  { rewrite (fallback_data_lines env file_path _ Hg), Hb. apply parse_nothing, H. }
  unfold Abc.load_gzipped_json, ImportGzip.load_gzipped_json.
  rewrite Hr, Hv, Hd. split; reflexivity.
Qed.

Lemma nothing_parsed_empty_table_witness :
  Abc.load_gzipped_json
    (with_lines sample_env [("users.json.gz" ++ nl)%string; nl; ("{oops" ++ nl)%string])
    users_path
  = Ok (Frame DataFrame_empty)
  /\ ImportGzip.load_gzipped_json (with_lines sample_env []) users_path
     = Ok (Frame DataFrame_empty).
Proof.
  split.
  - apply (nothing_parsed_empty_table
             (with_lines sample_env
                [("users.json.gz" ++ nl)%string; nl; ("{oops" ++ nl)%string])
             users_path "users.json"
             [("users.json.gz" ++ nl)%string; nl; ("{oops" ++ nl)%string]).
    + exists ValueError. split; reflexivity.
    + reflexivity.
    + reflexivity.
    + intros l [<-|[<-|[<-|[]]]]; [left | left | right]; reflexivity.
  - apply (nothing_parsed_empty_table (with_lines sample_env []) users_path
             "users.json" []).
    + exists ValueError. split; reflexivity.
    + reflexivity.
    + reflexivity.
    + intros l [].
Defined.

Lemma lstrip_all_space s : all_space s = true -> lstrip s = EmptyString.
Proof.
  induction s as [|c s IH]; simpl; intros H; [reflexivity | ].
  apply andb_prop in H. destruct H as [Hc Hs]. rewrite Hc. apply IH, Hs.
Qed.

Lemma strip_all_space s : all_space s = true -> str_bool (strip s) = false.
Proof. intros H. unfold strip. rewrite (lstrip_all_space s H). reflexivity. Qed.

Lemma fallback_data_skips env file_path pre line post :
  kept (replace (last (split "/" file_path) "") ".gz" "") line = false ->
  fallback_data (with_lines env (pre ++ line :: post)) file_path
  = fallback_data (with_lines env (pre ++ post)) file_path.
Proof.
  intros K. rewrite !fallback_data_with_lines, !for_each_app.
  destruct (for_each pre _ []) as [data|e]; cbn [bind]; [ | reflexivity].
  simpl for_each. rewrite (parse_line_skipped _ _ _ _ K). reflexivity.
Qed.

(** X10: a line of white space only, wherever it stands in the file,
    leaves no trace: either loader returns for the file what it returns
    for the file without that line. *)
Theorem blank_lines_leave_no_trace env file_path pre line post :
  all_space line = true ->
  Abc.load_gzipped_json (with_lines env (pre ++ line :: post)) file_path
  = Abc.load_gzipped_json (with_lines env (pre ++ post)) file_path
  /\ ImportGzip.load_gzipped_json (with_lines env (pre ++ line :: post)) file_path
     = ImportGzip.load_gzipped_json (with_lines env (pre ++ post)) file_path.
Proof.
  intros H.
  assert (Hd : fallback_data (with_lines env (pre ++ line :: post)) file_path
               = fallback_data (with_lines env (pre ++ post)) file_path).
  { apply fallback_data_skips. unfold kept. rewrite (strip_all_space line H). reflexivity. }
  unfold Abc.load_gzipped_json, ImportGzip.load_gzipped_json.
  change (read_json (with_lines env (pre ++ line :: post))) with (read_json env).
  change (read_json (with_lines env (pre ++ post))) with (read_json env).
  rewrite Hd. split; reflexivity.
Qed.

Lemma blank_lines_leave_no_trace_witness :
  Abc.load_gzipped_json
    (with_lines sample_env [user_line "abc123"; (" " ++ nl)%string; user_line "def456"])
    users_path
  = Abc.load_gzipped_json
      (with_lines sample_env [user_line "abc123"; user_line "def456"]) users_path.
Proof.
  apply (blank_lines_leave_no_trace sample_env users_path
           [user_line "abc123"] (" " ++ nl)%string [user_line "def456"]).
  reflexivity.
Defined.

Lemma parse_lines_from env b lines : forall data,
  for_each lines (parse_line env b) data
  = (r <- for_each lines (parse_line env b) [] ;; Ok (data ++ r)).
Proof.
  induction lines as [|line lines IH]; intros data.
  - simpl. rewrite app_nil_r. reflexivity.
  - cbn [for_each]. unfold parse_line at 1 3.
    destruct (str_bool (strip line) && negb (startswith line b)).
    + destruct (json_loads env line) as [v|e].
      * cbn [bind app]. rewrite (IH (data ++ [v])), (IH [v]).
        destruct (for_each lines (parse_line env b) []) as [r|e]; cbn [bind];
          [ | reflexivity].
        rewrite <- app_assoc. reflexivity.
      * destruct e; cbn [bind]; try reflexivity. apply IH.
    + cbn [bind]. apply IH.
Qed.

(** X11: the data of the fallback for a file that is two files one after
    the other are the data of the first followed by those of the second,
    and it raises what the first, or else the second, raises. *)
Theorem fallback_data_app env file_path lines1 lines2 :
  fallback_data (with_lines env (lines1 ++ lines2)) file_path
  = (data1 <- fallback_data (with_lines env lines1) file_path ;;
     data2 <- fallback_data (with_lines env lines2) file_path ;;
     Ok (data1 ++ data2)).
Proof.
  rewrite !fallback_data_with_lines, for_each_app.
  destruct (for_each lines1 _ []) as [data1|e]; cbn [bind]; [ | reflexivity].
  apply parse_lines_from.
Qed.

(** ** The base name of an export *)

Lemma split_no_sep sep s : no_char sep s = true -> split sep s = [s].
Proof.
  induction s as [|c s IH]; simpl; intros H; [reflexivity | ].
  apply andb_prop in H. destruct H as [Hc Hs]. apply negb_true_iff in Hc.
  rewrite Hc, (IH Hs). reflexivity.
Qed.

Lemma split_after_sep sep dir name :
  no_char sep name = true ->
  exists w ws,
    split sep (dir ++ String sep name) = w :: ws /\ ws <> [] /\ last ws "" = name.
Proof.
  intros H. induction dir as [|c dir IH].
  - exists "", [name]. simpl. rewrite Ascii.eqb_refl, (split_no_sep sep name H).
    split; [reflexivity | ]. split; [discriminate | reflexivity].
  - destruct IH as (w & ws & Hs & Hne & Hl). cbn [append split]. rewrite Hs.
    destruct (Ascii.eqb c sep).
    + exists "", (w :: ws). split; [reflexivity | ]. split; [discriminate | ].
      destruct ws as [|w' ws]; [contradiction | exact Hl].
    + exists (String c w), ws. split; [reflexivity | ]. split; assumption.
Qed.

Lemma last_segment sep dir name :
  no_char sep name = true -> last (split sep (dir ++ String sep name)) "" = name.
Proof.
  intros H. destruct (split_after_sep sep dir name H) as (w & ws & -> & Hne & Hl).
  destruct ws as [|w' ws]; [contradiction | exact Hl].
Qed.

Lemma no_char_app c x y : no_char c (x ++ y) = no_char c x && no_char c y.
Proof.
  induction x as [|a x IH]; simpl; [reflexivity | ].
  rewrite IH, andb_assoc. reflexivity.
Qed.

Lemma replace_no_dot x y :
  no_char "." x = true ->
  replace (x ++ y) ".gz" "" = (x ++ replace y ".gz" "")%string.
Proof.
  unfold replace. induction x as [|c x IH]; intros H.
  - reflexivity.
  - simpl in H. apply andb_prop in H. destruct H as [Hc Hx].
    apply negb_true_iff in Hc.
    cbn [append replace_from startswith].
    rewrite Ascii.eqb_sym, Hc. cbn [andb]. f_equal. apply IH, Hx.
Qed.

Lemma startswith_json_gz stem rest :
  startswith (stem ++ ".json.gz" ++ rest) (stem ++ ".json") = true.
Proof.
  induction stem as [|c stem IH]; [reflexivity | ].
  cbn [append startswith]. rewrite Ascii.eqb_refl. exact IH.
Qed.

(** X12: for an export [dir/stem.json.gz] whose stem has neither a slash
    nor a dot the token is [stem.json], so that a line made of the name
    of the file, whatever follows it, is skipped. *)
Theorem base_name_of_json_gz env dir stem :
  no_char "/" stem = true -> no_char "." stem = true ->
  base_name (dir ++ "/" ++ stem ++ ".json.gz") = Ok (stem ++ ".json")%string
  /\ (forall rest data,
         parse_line env (stem ++ ".json") data (stem ++ ".json.gz" ++ rest) = Ok data).
Proof.
  intros Hs Hd. split.
  - rewrite base_name_eq.
    change (dir ++ "/" ++ stem ++ ".json.gz")%string
      with (dir ++ String "/" (stem ++ ".json.gz"))%string.
    rewrite last_segment by (rewrite no_char_app, Hs; reflexivity).
    rewrite (replace_no_dot stem ".json.gz" Hd). reflexivity.
  - intros rest data. apply parse_line_header, startswith_json_gz.
Qed.

Lemma base_name_of_json_gz_witness :
  base_name "data/input_data/users.json.gz" = Ok "users.json"
  /\ parse_line sample_env "users.json" [] ("users.json.gz" ++ nl) = Ok [].
Proof.
  destruct (base_name_of_json_gz sample_env "data/input_data" "users" eq_refl eq_refl)
    as [Hb Hp].
  split; [exact Hb | exact (Hp nl [])].
Defined.

(** ** Extraction from a table that lacks the column *)

(** X13: on a table without the column the extraction of [abc.py] raises
    [KeyError], for the item list and for [cpg] alike; that of
    [import gzip.py] leaves the table as it is and gives the empty
    frame. *)
Theorem extraction_without_column df :
  (has_column df (LStr "rewardsReceiptItemList") = false ->
   Abc.rewardsReceiptItemList_df df = Raise KeyError
   /\ ImportGzip.rewardsReceiptItemList_df df = Ok (Frame DataFrame_empty, df)) /\
  (has_column df (LStr "cpg") = false -> Abc.cpg_df df = Raise KeyError).
Proof.
  split.
  - intros H. split.
    + unfold Abc.rewardsReceiptItemList_df, Abc.extract, frame_getitem.
      rewrite (proj1 (has_column_false df _) H). reflexivity.
    + unfold ImportGzip.rewardsReceiptItemList_df. rewrite H. reflexivity.
  - intros H. unfold Abc.cpg_df, Abc.extract, frame_getitem.
    rewrite (proj1 (has_column_false df _) H). reflexivity.
Qed.

Lemma extraction_without_column_witness :
  Abc.rewardsReceiptItemList_df sample_users = Raise KeyError
  /\ ImportGzip.rewardsReceiptItemList_df sample_users
     = Ok (Frame DataFrame_empty, sample_users)
  /\ Abc.cpg_df sample_users = Raise KeyError.
Proof.
  destruct (extraction_without_column sample_users) as [Hr Hc].
  destruct (Hr eq_refl) as [Ha Hg]. split; [exact Ha | ]. split; [exact Hg | ].
  apply Hc. reflexivity.
Defined.

(** ** The shape of a table of records *)

Lemma NoDup_snoc {A} (l : list A) k : NoDup l -> ~ In k l -> NoDup (l ++ [k]).
Proof.
  induction l as [|a l IH]; simpl; intros ND N.
  - constructor; [intros [] | constructor].
  - inversion ND as [|? ? Ha ND']; subst. constructor.
    + intros Hin. apply in_app_or in Hin. destruct Hin as [Hin|[->|[]]].
      * contradiction.
      * apply N. left. reflexivity.
    + apply IH; [exact ND' | intros Hin; apply N; right; exact Hin].
Qed.

Lemma add_key_NoDup seen k : NoDup seen -> NoDup (add_key seen k).
Proof.
  intros ND. unfold add_key. destruct (existsb (String.eqb k) seen) eqn:E; [exact ND | ].
  apply NoDup_snoc; [exact ND | ]. intros Hin.
  assert (existsb (String.eqb k) seen = true); [ | congruence].
  apply existsb_exists. exists k. split; [exact Hin | apply String.eqb_refl].
Qed.

Lemma add_keys_NoDup ks : forall seen, NoDup seen -> NoDup (fold_left add_key ks seen).
Proof.
  induction ks as [|k ks IH]; simpl; intros seen ND; [exact ND | ].
  apply IH, add_key_NoDup, ND.
Qed.

Lemma record_keys_NoDup data : NoDup (record_keys data).
Proof.
  unfold record_keys. assert (ND : NoDup (@nil string)) by constructor.
  revert ND. generalize (@nil string) as seen.
  induction data as [|r data IH]; simpl; intros seen ND; [exact ND | ].
  apply IH, add_keys_NoDup, ND.
Qed.

Lemma LStr_NoDup keys : NoDup keys -> NoDup (map LStr keys).
Proof.
  induction keys as [|k keys IH]; simpl; intros ND; [constructor | ].
  inversion ND as [|? ? Hk ND']; subst. constructor.
  - apply not_in_LStr, Hk.
  - apply IH, ND'.
Qed.

Lemma DataFrame_of_records_labels data :
  column_labels (DataFrame_of_records data) = map LStr (record_keys data).
Proof.
  unfold column_labels, DataFrame_of_records. cbn [df_data].
  rewrite map_map. reflexivity.
Qed.

Lemma DataFrame_of_records_shape data :
  NoDup (column_labels (DataFrame_of_records data))
  /\ rectangular (DataFrame_of_records data)
  /\ df_index (DataFrame_of_records data) = RangeIndex (List.length data).
Proof.
  split; [ | split].
  - rewrite DataFrame_of_records_labels. apply LStr_NoDup, record_keys_NoDup.
  - unfold rectangular, DataFrame_of_records. cbn [df_data df_index].
    apply Forall_forall. intros c Hc. apply in_map_iff in Hc.
    destruct Hc as (k & <- & _). cbn [snd].
    rewrite length_map, RangeIndex_length. reflexivity.
  - reflexivity.
Qed.

(** X14: the table the fallback returns is well formed: its column labels
    are distinct, every column has one cell per row, and its rows are
    numbered from 0. *)
Theorem fallback_table_shape env file_path lines :
  json_lines env file_path -> falls_back env file_path ->
  gzip_open env file_path = Ok lines ->
  exists df,
    Abc.load_gzipped_json env file_path = Ok (Frame df)
    /\ ImportGzip.load_gzipped_json env file_path = Ok (Frame df)
    /\ NoDup (column_labels df)
    /\ rectangular df
    /\ df_index df = RangeIndex (List.length (df_index df)).
Proof.
  intros Hj Hf Hg. eexists. split; [ | split].
  - apply (abc_load_fallback env file_path Hj lines Hg Hf).
  - apply (gzip_load_fallback env file_path Hj lines Hg Hf).
  - destruct (DataFrame_of_records_shape
                (parsed_objects env (replace (last (split "/" file_path) "") ".gz" "")
                   lines)) as (ND & R & I).
    split; [exact ND | ]. split; [exact R | ].
    rewrite I at 1. rewrite I, RangeIndex_length. reflexivity.
Qed.

Lemma fallback_table_shape_witness :
  exists df,
    Abc.load_gzipped_json sample_env broken_path = Ok (Frame df)
    /\ NoDup (column_labels df) /\ rectangular df.
Proof.
  destruct (fallback_table_shape sample_env broken_path broken_lines)
    as (df & Ha & _ & ND & R & _).
  - intros line _. apply sample_loads_total.
  - exists ValueError. split; reflexivity.
  - reflexivity.
  - exists df. split; [exact Ha | ]. split; [exact ND | exact R].
Defined.

(** ** Dates beyond the calendar *)




(** ** The scripts *)

Lemma extract_frame col df sub parent :
  Abc.extract col df = Ok (sub, parent) -> column_labels sub = [LStr col].
Proof.
  unfold Abc.extract, frame_getitem.
  destruct (column_values (LStr col) (df_data df)) as [vs|]; [ | discriminate].
  cbn [bind]. destruct (drop_column df col) as [p|e]; [ | discriminate].
  cbn [bind]. intros H. injection H as <- _. reflexivity.
Qed.

(** A table whose one column is [cpg] has no column [cpg_ref] after the
    conversions either. *)
Lemma cpg_ref_KeyError env sub r :
  column_labels sub = [LStr "cpg"] ->
  Abc.apply_conversions env (Frame sub) = Ok r ->
  exists d, r = Frame d /\ frame_getitem d "cpg_ref" = Raise KeyError.
Proof.
  intros L H. destruct (abc_apply_conversions_frame env sub r H) as (d & -> & U).
  exists d. split; [reflexivity | ]. destruct U as (_ & L' & _).
  unfold frame_getitem. rewrite column_values_absent; [reflexivity | ].
  change (map fst (df_data d)) with (column_labels d). rewrite L', L.
  intros [E|[]]. discriminate E.
Qed.

Lemma abc_script_after env receipts users_df brands dataframes :
  column_labels (fst brands) = [LStr "cpg"] ->
  Abc.convert_all env
    [("receipts", Frame (snd receipts)); ("users", users_df);
     ("brands", Frame (snd brands));
     ("rewardsReceiptItemList_df", Frame (fst receipts));
     ("cpg_df", Frame (fst brands))] = Ok dataframes ->
  match nth_error dataframes 4 with
  | Some (_, Frame cpg_df) => _ <- frame_getitem cpg_df "cpg_ref" ;; Ok dataframes
  | _ => Raise AttributeError
  end = Raise KeyError.
Proof.
  intros L. unfold Abc.convert_all. cbn [mapM fst snd].
  destruct (Abc.apply_conversions env (Frame (snd receipts))) as [r1|e]; [ | discriminate].
  cbn [bind].
  destruct (Abc.apply_conversions env users_df) as [r2|e]; [ | discriminate].
  cbn [bind].
  destruct (Abc.apply_conversions env (Frame (snd brands))) as [r3|e]; [ | discriminate].
  cbn [bind].
  destruct (Abc.apply_conversions env (Frame (fst receipts))) as [r4|e]; [ | discriminate].
  cbn [bind].
  destruct (Abc.apply_conversions env (Frame (fst brands))) as [r5|e] eqn:H5;
    [ | discriminate].
  cbn [bind]. intros H. injection H as <-. cbn [nth_error].
  destruct (cpg_ref_KeyError env (fst brands) r5 L H5) as (d & -> & ->). reflexivity.
Qed.

(** X16: the script of [abc.py] never runs to its end on the tables it
    loads: an extraction or a conversion raises, or else line 132 raises
    [KeyError], since the table [cpg_df] has the one column [cpg] and no
    column [cpg_ref]. *)
Theorem abc_script_raises env receipts_df users_df brands_df :
  (exists e, Abc.script env receipts_df users_df brands_df = Raise e) /\
  (forall receipts brands,
      Abc.rewardsReceiptItemList_df receipts_df = Ok receipts ->
      Abc.cpg_df brands_df = Ok brands ->
      returns (Abc.convert_all env
                 [("receipts", Frame (snd receipts)); ("users", users_df);
                  ("brands", Frame (snd brands));
                  ("rewardsReceiptItemList_df", Frame (fst receipts));
                  ("cpg_df", Frame (fst brands))]) ->
      Abc.script env receipts_df users_df brands_df = Raise KeyError).
Proof.
  assert (Hgood : forall receipts brands,
      Abc.rewardsReceiptItemList_df receipts_df = Ok receipts ->
      Abc.cpg_df brands_df = Ok brands ->
      forall dataframes,
      Abc.convert_all env
        [("receipts", Frame (snd receipts)); ("users", users_df);
         ("brands", Frame (snd brands));
         ("rewardsReceiptItemList_df", Frame (fst receipts));
         ("cpg_df", Frame (fst brands))] = Ok dataframes ->
      Abc.script env receipts_df users_df brands_df = Raise KeyError).
  { intros receipts [sub parent] Hr Hb dataframes Hc. unfold Abc.script.
    rewrite Hr, Hb. cbn [bind]. rewrite Hc. cbn [bind].
    apply (abc_script_after env receipts users_df (sub, parent) dataframes); [ | exact Hc].
    apply (extract_frame "cpg" brands_df sub parent Hb). }
  split.
  - destruct (Abc.rewardsReceiptItemList_df receipts_df) as [receipts|e] eqn:Hr.
    + destruct (Abc.cpg_df brands_df) as [brands|e] eqn:Hb.
      * destruct (Abc.convert_all env
                    [("receipts", Frame (snd receipts)); ("users", users_df);
                     ("brands", Frame (snd brands));
                     ("rewardsReceiptItemList_df", Frame (fst receipts));
                     ("cpg_df", Frame (fst brands))]) as [dataframes|e] eqn:Hc.
        -- exists KeyError. apply (Hgood receipts brands eq_refl eq_refl dataframes Hc).
        -- exists e. unfold Abc.script. rewrite Hr, Hb. cbn [bind]. rewrite Hc.
           reflexivity.
      * exists e. unfold Abc.script. rewrite Hr, Hb. reflexivity.
    + exists e. unfold Abc.script. rewrite Hr. reflexivity.
  - intros receipts brands Hr Hb [dataframes Hc].
    apply (Hgood receipts brands Hr Hb dataframes Hc).
Qed.

Lemma abc_script_raises_witness :
  Abc.script sample_env sample_receipts (Frame sample_users) sample_brands
  = Raise KeyError.
Proof.
  destruct (Abc.rewardsReceiptItemList_df sample_receipts) as [receipts|e] eqn:Hr;
    [ | vm_compute in Hr; discriminate Hr].
  destruct (Abc.cpg_df sample_brands) as [brands|e] eqn:Hb;
    [ | vm_compute in Hb; discriminate Hb].
  apply (proj2 (abc_script_raises sample_env sample_receipts (Frame sample_users)
                  sample_brands) receipts brands Hr Hb).
  vm_compute in Hr. injection Hr as <-. vm_compute in Hb. injection Hb as <-.
  eexists. vm_compute. reflexivity.
Defined.

Section GzipScript.

Variable env : Env.
Variable receipts_df : DataFrame.
Variables users_df brands_df : pandas_obj.
Hypothesis Hreceipts :
  ImportGzip.load_gzipped_json env "data/input_data/receipts.json.gz"
  = Ok (Frame receipts_df).
Hypothesis Husers :
  ImportGzip.load_gzipped_json env "data/input_data/users.json.gz" = Ok users_df.
Hypothesis Hbrands :
  ImportGzip.load_gzipped_json env "data/input_data/brands.json.gz" = Ok brands_df.

Lemma gzip_script_loaded :
  ImportGzip.script env
  = (extracted <- ImportGzip.rewardsReceiptItemList_df receipts_df ;;
     ImportGzip.convert_all env
       [("receipts", Frame (snd extracted)); ("users", users_df);
        ("brands", brands_df); ("rewardsReceiptItemList", fst extracted)]).
Proof.
  unfold ImportGzip.script.
  change (ImportGzip.lookup_path "receipts" ImportGzip.file_paths)
    with (@Ok string "data/input_data/receipts.json.gz").
  change (ImportGzip.lookup_path "users" ImportGzip.file_paths)
    with (@Ok string "data/input_data/users.json.gz").
  change (ImportGzip.lookup_path "brands" ImportGzip.file_paths)
    with (@Ok string "data/input_data/brands.json.gz").
  cbn [bind]. rewrite Hreceipts. cbn [bind]. rewrite Husers. cbn [bind].
  rewrite Hbrands. reflexivity.
Qed.

Lemma gzip_script_with_column vs :
  column_values (LStr "rewardsReceiptItemList") (df_data receipts_df) = Some vs ->
  exists parent e,
    drop_column receipts_df "rewardsReceiptItemList" = Ok parent
    /\ ImportGzip.script env = Raise e
    /\ (returns (ImportGzip.apply_conversions env (Frame parent)) ->
        returns (ImportGzip.apply_conversions env users_df) ->
        returns (ImportGzip.apply_conversions env brands_df) ->
        e = AttributeError).
Proof.
  intros Hvs.
  destruct (drop_column_frame receipts_df "rewardsReceiptItemList" vs Hvs)
    as (parent & Hd & _).
  exists parent. rewrite gzip_script_loaded.
  unfold ImportGzip.rewardsReceiptItemList_df, frame_getitem.
  rewrite (proj2 (has_column_values receipts_df _) (ex_intro _ vs Hvs)), Hvs.
  cbn [bind]. rewrite Hd. cbn [bind fst snd].
  unfold ImportGzip.convert_all. cbn [mapM fst snd].
  destruct (ImportGzip.apply_conversions env (Frame parent)) as [r1|e1].
  - cbn [bind]. destruct (ImportGzip.apply_conversions env users_df) as [r2|e2].
    + cbn [bind]. destruct (ImportGzip.apply_conversions env brands_df) as [r3|e3].
      * cbn [bind ImportGzip.apply_conversions]. exists AttributeError.
        split; [reflexivity | ]. split; reflexivity.
      * cbn [bind]. exists e3. split; [reflexivity | ]. split; [reflexivity | ].
        intros _ _ [r H]. discriminate H.
    + cbn [bind]. exists e2. split; [reflexivity | ]. split; [reflexivity | ].
      intros _ [r H]. discriminate H.
  - cbn [bind]. exists e1. split; [reflexivity | ]. split; [reflexivity | ].
    intros [r H]. discriminate H.
Qed.

Lemma gzip_script_without_column :
  has_column receipts_df (LStr "rewardsReceiptItemList") = false ->
  ImportGzip.script env
  = (receipts <- ImportGzip.apply_conversions env (Frame receipts_df) ;;
     users <- ImportGzip.apply_conversions env users_df ;;
     brands <- ImportGzip.apply_conversions env brands_df ;;
     Ok [("receipts", receipts); ("users", users); ("brands", brands);
         ("rewardsReceiptItemList", Frame DataFrame_empty)]).
Proof.
  intros H. rewrite gzip_script_loaded.
  unfold ImportGzip.rewardsReceiptItemList_df. rewrite H. cbn [bind fst snd].
  unfold ImportGzip.convert_all. cbn [mapM fst snd].
  destruct (ImportGzip.apply_conversions env (Frame receipts_df)) as [r1|e1];
    [ | reflexivity]. cbn [bind].
  destruct (ImportGzip.apply_conversions env users_df) as [r2|e2]; [ | reflexivity].
  cbn [bind].
  destruct (ImportGzip.apply_conversions env brands_df) as [r3|e3]; [ | reflexivity].
  reflexivity.
Qed.

End GzipScript.

(** X17: once its three loads have returned, the script of
    [import gzip.py] cannot run to its end when the receipts have the
    column [rewardsReceiptItemList]: the extracted column is a series,
    and converting it raises [AttributeError] if nothing raised before.
    When the receipts lack the column it converts the three tables and
    keeps the empty frame for the items. *)
Theorem gzip_script_outcome env receipts_df users_df brands_df :
  ImportGzip.load_gzipped_json env "data/input_data/receipts.json.gz"
  = Ok (Frame receipts_df) ->
  ImportGzip.load_gzipped_json env "data/input_data/users.json.gz" = Ok users_df ->
  ImportGzip.load_gzipped_json env "data/input_data/brands.json.gz" = Ok brands_df ->
  (forall vs,
      column_values (LStr "rewardsReceiptItemList") (df_data receipts_df) = Some vs ->
      exists parent e,
        drop_column receipts_df "rewardsReceiptItemList" = Ok parent
        /\ ImportGzip.script env = Raise e
        /\ (returns (ImportGzip.apply_conversions env (Frame parent)) ->
            returns (ImportGzip.apply_conversions env users_df) ->
            returns (ImportGzip.apply_conversions env brands_df) ->
            e = AttributeError)) /\
  (has_column receipts_df (LStr "rewardsReceiptItemList") = false ->
   ImportGzip.script env
   = (receipts <- ImportGzip.apply_conversions env (Frame receipts_df) ;;
      users <- ImportGzip.apply_conversions env users_df ;;
      brands <- ImportGzip.apply_conversions env brands_df ;;
      Ok [("receipts", receipts); ("users", users); ("brands", brands);
          ("rewardsReceiptItemList", Frame DataFrame_empty)])).
Proof.
  intros Hr Hu Hb. split.
  - apply gzip_script_with_column; assumption.
  - apply gzip_script_without_column; assumption.
Qed.

Lemma gzip_script_outcome_witness :
  ImportGzip.script (exports_env sample_receipts) = Raise AttributeError
  /\ returns (ImportGzip.script (exports_env sample_users)).
Proof.
  split.
  - destruct (gzip_script_outcome (exports_env sample_receipts) sample_receipts
                (Frame sample_users) (Frame sample_brands) eq_refl eq_refl eq_refl)
      as [Hwith _].
    destruct (Hwith [VList [VDict [("barcode", VStr "4011")]]; VList []] eq_refl)
      as (parent & e & Hd & Hs & He).
    rewrite Hs. f_equal. vm_compute in Hd. injection Hd as <-.
    apply He; eexists; vm_compute; reflexivity.
  - destruct (gzip_script_outcome (exports_env sample_users) sample_users
                (Frame sample_users) (Frame sample_brands) eq_refl eq_refl eq_refl)
      as [_ Hwithout].
    rewrite (Hwithout eq_refl). eexists. vm_compute. reflexivity.
Defined.

(** ** Extraction, then conversion *)

Lemma extract_inv col df sub parent :
  Abc.extract col df = Ok (sub, parent) ->
  exists vs, column_values (LStr col) (df_data df) = Some vs
             /\ sub = mkDataFrame (df_index df) [(LStr col, vs)].
Proof.
  unfold Abc.extract, frame_getitem.
  destruct (column_values (LStr col) (df_data df)) as [vs|]; [ | discriminate].
  cbn [bind]. destruct (drop_column df col) as [p|e]; [ | discriminate].
  cbn [bind]. intros H. injection H as <- _. exists vs. split; reflexivity.
Qed.

Lemma items_not_converted env index vs :
  Abc.apply_conversions env
    (Frame (mkDataFrame index [(LStr "rewardsReceiptItemList", vs)]))
  = Ok (Frame (mkDataFrame index [(LStr "rewardsReceiptItemList", vs)])).
Proof.
  apply abc_apply_conversions_absent. intros l Hl. simpl in Hl.
  repeat (destruct Hl as [<-|Hl]; [reflexivity | ]). destruct Hl.
Qed.

Lemma cpg_converted env index vs :
  exists ws,
    mapM Abc.convert_cpg vs = Ok ws
    /\ Abc.apply_conversions env (Frame (mkDataFrame index [(LStr "cpg", vs)]))
       = Ok (Frame (mkDataFrame index [(LStr "cpg", ws)])).
Proof.
  destruct (mapM_returns Abc.convert_cpg vs (fun v _ => convert_cpg_returns v))
    as [ws Hws].
  exists ws. split; [exact Hws | ]. unfold Abc.apply_conversions.
  rewrite for_each_absent by
    (intros c Hc; simpl in Hc;
     repeat (destruct Hc as [<-|Hc]; [reflexivity | ]); destruct Hc).
  cbn [bind].
  rewrite for_each_absent by
    (intros c Hc; simpl in Hc;
     repeat (destruct Hc as [<-|Hc]; [reflexivity | ]); destruct Hc).
  cbn [bind].
  rewrite (convert_column_present Abc.convert_cpg
             (mkDataFrame index [(LStr "cpg", vs)]) "cpg" vs eq_refl), Hws.
  reflexivity.
Qed.

(** X18: of the two tables [abc.py] extracts, the conversions return the
    item table as it is, whatever identifiers and dates its item lists
    hold, and return [cpg_df] on the same rows with every cell converted
    by [convert_cpg]; neither conversion raises. *)
Theorem extracted_tables_converted env df :
  (forall sub parent,
      Abc.rewardsReceiptItemList_df df = Ok (sub, parent) ->
      Abc.apply_conversions env (Frame sub) = Ok (Frame sub)) /\
  (forall sub parent,
      Abc.cpg_df df = Ok (sub, parent) ->
      exists vs ws,
        column_values (LStr "cpg") (df_data df) = Some vs
        /\ mapM Abc.convert_cpg vs = Ok ws
        /\ Abc.apply_conversions env (Frame sub)
           = Ok (Frame (mkDataFrame (df_index df) [(LStr "cpg", ws)]))).
Proof.
  split.
  - intros sub parent H.
    destruct (extract_inv "rewardsReceiptItemList" df sub parent H) as (vs & _ & ->).
    apply items_not_converted.
  - intros sub parent H.
    destruct (extract_inv "cpg" df sub parent H) as (vs & Hvs & ->).
    destruct (cpg_converted env (df_index df) vs) as (ws & Hws & Hc).
    exists vs, ws. split; [exact Hvs | ]. split; [exact Hws | exact Hc].
Qed.

Lemma extracted_tables_converted_witness :
  Abc.apply_conversions sample_env
    (Frame (mkDataFrame [LInt 0; LInt 1]
              [(LStr "rewardsReceiptItemList",
                [VList [VDict [("barcode", VStr "4011")]]; VList []])]))
  = Ok (Frame (mkDataFrame [LInt 0; LInt 1]
                 [(LStr "rewardsReceiptItemList",
                   [VList [VDict [("barcode", VStr "4011")]]; VList []])]))
  /\ exists vs ws,
       column_values (LStr "cpg") (df_data sample_brands) = Some vs
       /\ mapM Abc.convert_cpg vs = Ok ws
       /\ ws = [cpg_pair (VStr "601ac114be37ce2ead437550") (VStr "Cogs"); NaN].
Proof.
  destruct (extracted_tables_converted sample_env sample_receipts) as [Hitems _].
  destruct (extracted_tables_converted sample_env sample_brands) as [_ Hcpg].
  split.
  - destruct (Abc.rewardsReceiptItemList_df sample_receipts) as [[sub parent]|e] eqn:E;
      [ | vm_compute in E; discriminate E].
    pose proof (Hitems sub parent eq_refl) as H.
    vm_compute in E. injection E as <- _. exact H.
  - destruct (Abc.cpg_df sample_brands) as [[sub parent]|e] eqn:E;
      [ | vm_compute in E; discriminate E].
    destruct (Hcpg sub parent eq_refl) as (vs & ws & Hvs & Hws & _).
    exists vs, ws. split; [exact Hvs | ]. split; [exact Hws | ].
    vm_compute in Hvs. injection Hvs as <-. vm_compute in Hws. injection Hws as <-.
    reflexivity.
Defined.
